(** * The authenticated API client of the NCLEX tutoring frontend

    A shallow embedding of [frontend/lib/api.js]: the error classifier
    [handleApiError], the token refresher [refreshToken], the
    authenticated request gateway [apiRequest], [login] and [logout].

    The JavaScript is asynchronous, but every function studied here awaits
    each promise before it goes on, so one call is a sequential program
    over the browser's state; what other callers do to the store while a
    call is suspended is not part of it.  That state is made explicit: the
    [localStorage] key/value store, the assignments to
    [window.location.href], the toasts, the console and the list of
    [fetch] calls.  The network is a parameter: a function giving, for a
    request and the requests sent before it, either a response or a
    rejected promise.  A JavaScript exception is the [Throw] result.
    [localStorage], [toast] and [console] themselves never throw, and every
    [fetch] settles. *)

From stdpp Require Import gmap strings list fin_maps pretty.

Open Scope string_scope.
Open Scope Z_scope.

(** ** JavaScript values *)

(** The values that flow through the module: what [JSON.parse] produces,
    plus [undefined].  A number is only ever tested for truthiness,
    converted to a string or passed on, so an integer stands for it.  An
    object is the list of its own properties in insertion order. *)
#[warnings="-register-all"]
Inductive value : Type :=
  | VUndefined
  | VNull
  | VBool (b : bool)
  | VNum (n : Z)
  | VStr (s : string)
  | VArr (items : list value)
  | VObj (props : list (string * value)).

(** [ToBoolean]: what [if (v)], [!v] and [v || w] test. *)
Definition truthy (v : value) : bool :=
  match v with
  | VUndefined | VNull => false
  | VBool b => b
  | VNum n => negb (n =? 0)
  | VStr s => negb (String.eqb s "")
  | VArr _ | VObj _ => true
  end.

(** [a || b] *)
Definition js_or (a b : value) : value := if truthy a then a else b.

Definition join_with (sep : string) (parts : list string) : string :=
  match parts with
  | [] => ""
  | p :: ps => fold_left (fun acc q => acc +:+ sep +:+ q) ps p
  end.

(** [ToString], as a template literal and [localStorage.setItem] apply it.
    [Array.prototype.toString] joins with commas and prints [null] and
    [undefined] elements as nothing. *)
Fixpoint ToString (v : value) : string :=
  match v with
  | VUndefined => "undefined"
  | VNull => "null"
  | VBool true => "true"
  | VBool false => "false"
  | VNum n => pretty n
  | VStr s => s
  | VArr items =>
      join_with ","
        (map (fun x => match x with
                       | VUndefined | VNull => ""
                       | _ => ToString x
                       end) items)
  | VObj _ => "[object Object]"
  end.

(** ** Exceptions and results *)

Inductive exn : Type :=
  | SyntaxError          (* [response.json()] on a body that is not JSON *)
  | TypeError_nullish    (* a property read on [null] or [undefined] *)
  | TypeError_bodyUsed   (* [response.json()] on a body already read *)
  | NetworkFailure.      (* [fetch] rejected: no response at all *)

Inductive result (A : Type) : Type :=
  | Ok (a : A)
  | Throw (e : exn).
Arguments Ok {A} a.
Arguments Throw {A} e.

Definition is_ok {A} (r : result A) : bool :=
  match r with Ok _ => true | Throw _ => false end.

Fixpoint lookup_prop (k : string) (props : list (string * value)) : option value :=
  match props with
  | [] => None
  | (k', v) :: rest => if String.eqb k k' then Some v else lookup_prop k rest
  end.

(** [v.k] for the property names this module reads ([detail],
    [retry_after], [access_token], [message], ...): none of them is an
    index, [length] or a prototype member, so a primitive or an array
    answers [undefined]; reading a property of [null] or [undefined]
    throws. *)
Definition get (v : value) (k : string) : result value :=
  match v with
  | VUndefined | VNull => Throw TypeError_nullish
  | VObj props => Ok (default VUndefined (lookup_prop k props))
  | _ => Ok VUndefined
  end.

(** ** HTTP responses *)

(** [body] is what parsing the body text as JSON gives, [None] when the
    text is not JSON.  [bodyUsed] is the flag of the Fetch API: a body can
    be read once. *)
Record response : Type := mkResponse {
  status : Z;
  body : option value;
  bodyUsed : bool;
}.

(** [response.ok] *)
Definition ok (r : response) : bool := (200 <=? status r) && (status r <=? 299).

(** The response object after one of its readers ran. *)
Definition consumed (r : response) : response :=
  {| status := status r; body := body r; bodyUsed := true |}.

(** [await response.json()] *)
Definition json (r : response) : result value :=
  if bodyUsed r then Throw TypeError_bodyUsed
  else match body r with
       | None => Throw SyntaxError
       | Some v => Ok v
       end.

(** [new Response(JSON.stringify(v), { status })] *)
Definition new_Response (v : value) (st : Z) : response :=
  {| status := st; body := Some v; bodyUsed := false |}.

(** ** The error classifier *)

Definition fallback_message : string := "An unexpected error occurred.".

(** Sequencing of computations that may throw and touch no state. *)
Definition result_bind {A B} (r : result A) (k : A -> result B) : result B :=
  match r with
  | Ok a => k a
  | Throw e => Throw e
  end.

Notation "'let?' x ':=' r 'in' k" := (result_bind r (fun x => k))
  (at level 10, x name, r at level 100, k at level 200).

Definition handleApiError (response : response) : result value :=
  if status response =? 429 then
    let? data := json response in
    let? detail := get data "detail" in
    let? retry_after := get data "retry_after" in
    let? retry_after_human := get data "retry_after_human" in
    Ok (VObj [("isRateLimited", VBool true);
              ("message", detail);
              ("retryAfter", retry_after);
              ("retryAfterHuman", retry_after_human)])
  else if status response =? 423 then
    let? data := json response in
    let? detail := get data "detail" in
    Ok (VObj [("isLocked", VBool true);
              ("message", detail)])
  else
    let? data := json response in
    let? detail := get data "detail" in
    let? errors := get data "errors" in
    Ok (VObj [("isRateLimited", VBool false);
              ("isLocked", VBool false);
              ("message", js_or detail (VStr fallback_message));
              ("errors", js_or errors (VObj []))]).

(** ** Requests *)

(** What a caller can pass as [body]: the text [JSON.stringify(v)], some
    other text, or a [FormData] object. *)
Inductive body_init : Type :=
  | JSONText (v : value)
  | RawText (s : string)
  | FormData (entries : list (string * string)).

(** [b instanceof FormData], for an optional body *)
Definition instanceof_FormData (b : option body_init) : bool :=
  match b with
  | Some (FormData _) => true
  | _ => false
  end.

(** The [options] argument of [apiRequest].  [opt_headers] is the plain
    object under [options.headers], empty when there is none (spreading
    [undefined] adds nothing); [opt_rest] holds every other member of
    [options], which the spread hands to [fetch] untouched. *)
Record options : Type := mkOptions {
  opt_method : option string;
  opt_body : option body_init;
  opt_headers : gmap string value;
  opt_rest : gmap string value;
}.

(** One call [fetch(url, init)]. *)
Record request : Type := mkRequest {
  url : string;
  method : option string;
  headers : gmap string value;
  req_body : option body_init;
  rest : gmap string value;
}.

(** The object literal [{ Authorization: ..., "Content-Type": ...,
    ...options.headers }]: a later member replaces an earlier one of the
    same name, so the caller's members win ([∪] keeps the left value). *)
Definition request_headers (opts : options) (currentAccessToken : value)
  : gmap string value :=
  opt_headers opts ∪
  <["Content-Type" :=
      if instanceof_FormData (opt_body opts) then VUndefined
      else VStr "application/json"]>
    (<["Authorization" := VStr ("Bearer " +:+ ToString currentAccessToken)]> ∅).

(** The arguments [makeRequest] gives to [fetch]. *)
Definition makeRequest_init (u : string) (opts : options)
    (currentAccessToken : value) : request :=
  {| url := u;
     method := opt_method opts;
     headers := request_headers opts currentAccessToken;
     req_body := opt_body opts;
     rest := opt_rest opts |}.

Definition json_post (u : string) (payload : value) : request :=
  {| url := u;
     method := Some "POST";
     headers := {["Content-Type" := VStr "application/json"]};
     req_body := Some (JSONText payload);
     rest := ∅ |}.

Definition refresh_request (refresh_token : value) : request :=
  json_post "http://127.0.0.1:8000/api/auth/refresh/"
    (VObj [("refresh_token", refresh_token)]).

(** ** The browser *)

Record toast_message : Type := mkToast {
  title : string;
  description : value;
  variant : string;
}.

Record world : Type := mkWorld {
  localStorage : gmap string string;   (* the Credential Store lives here *)
  location_href : list string;         (* assignments to window.location.href, oldest first *)
  toasts : list toast_message;
  console : list string;
  fetched : list request;              (* calls to fetch, oldest first *)
}.

(** The credential store holds neither token. *)
Definition credentials_cleared (w : world) : Prop :=
  localStorage w !! "access_token" = None /\
  localStorage w !! "refresh_token" = None.

(** What [fetch] resolves to: a response of any status, or nothing when
    the promise rejects. *)
Definition network : Type := list request -> request -> option response.

(** Computations over the browser state that may throw.  The state a
    computation reached when it threw is kept: a [catch] block sees the
    writes made before the exception. *)
Definition M (A : Type) : Type := world -> result A * world.

Definition ret {A} (a : A) : M A := fun w => (Ok a, w).

Definition lift {A} (r : result A) : M A := fun w => (r, w).

Definition bind {A B} (m : M A) (k : A -> M B) : M B :=
  fun w =>
    match m w with
    | (Ok a, w') => k a w'
    | (Throw e, w') => (Throw e, w')
    end.

Definition try_catch {A} (m : M A) (handler : exn -> M A) : M A :=
  fun w =>
    match m w with
    | (Ok a, w') => (Ok a, w')
    | (Throw e, w') => handler e w'
    end.

Notation "'let!' x ':=' m 'in' k" := (bind m (fun x => k))
  (at level 10, x name, m at level 100, k at level 200).

(** [localStorage.getItem(k)]: the stored string, or [null]. *)
Definition item (store : gmap string string) (k : string) : value :=
  match store !! k with
  | Some s => VStr s
  | None => VNull
  end.

Definition getItem (k : string) : M value :=
  fun w => (Ok (item (localStorage w) k), w).

Definition setItem (k : string) (v : value) : M unit :=
  fun w => (Ok tt,
            {| localStorage := <[k := ToString v]> (localStorage w);
               location_href := location_href w;
               toasts := toasts w;
               console := console w;
               fetched := fetched w |}).

Definition removeItem (k : string) : M unit :=
  fun w => (Ok tt,
            {| localStorage := delete k (localStorage w);
               location_href := location_href w;
               toasts := toasts w;
               console := console w;
               fetched := fetched w |}).

(** [window.location.href = target] *)
Definition set_location_href (target : string) : M unit :=
  fun w => (Ok tt,
            {| localStorage := localStorage w;
               location_href := location_href w ++ [target];
               toasts := toasts w;
               console := console w;
               fetched := fetched w |}).

Definition toast (t : toast_message) : M unit :=
  fun w => (Ok tt,
            {| localStorage := localStorage w;
               location_href := location_href w;
               toasts := toasts w ++ [t];
               console := console w;
               fetched := fetched w |}).

(** [console.warn] and [console.error], by their first argument *)
Definition console_log (line : string) : M unit :=
  fun w => (Ok tt,
            {| localStorage := localStorage w;
               location_href := location_href w;
               toasts := toasts w;
               console := console w ++ [line];
               fetched := fetched w |}).

(** ** The client *)

Section Client.

(** The backend and the network in front of it. *)
Variable net : network.

(** The result of [fetch] for a request sent after [history]. *)
Definition answer (history : list request) (req : request) : result response :=
  match net history req with
  | Some r => Ok r
  | None => Throw NetworkFailure
  end.

(** [await fetch(url, init)]: the call is recorded, then the network
    answers or the promise rejects. *)
Definition fetch (req : request) : M response :=
  fun w =>
    (answer (fetched w) req,
     {| localStorage := localStorage w;
        location_href := location_href w;
        toasts := toasts w;
        console := console w;
        fetched := fetched w ++ [req] |}).

Definition refreshToken : M value :=
  let! refresh_token := getItem "refresh_token" in
  if negb (truthy refresh_token) then
    let! _ := console_log "No refresh token found. Redirecting to login." in
    let! _ := set_location_href "/login" in
    ret VNull
  else
    try_catch
      (let! response := fetch (refresh_request refresh_token) in
       if ok response then
         let! data := lift (json response) in
         let! access_token := lift (get data "access_token") in
         let! _ := setItem "access_token" access_token in
         let! new_refresh_token := lift (get data "refresh_token") in
         let! _ := setItem "refresh_token" new_refresh_token in
         lift (get data "access_token")
       else
         let! error := lift (handleApiError response) in
         let! _ := console_log "Token refresh failed:" in
         let! message := lift (get error "message") in
         let! _ := toast {| title := "Session Expired";
                            description := js_or message (VStr "Please log in again.");
                            variant := "destructive" |} in
         let! _ := set_location_href "/login" in
         ret VNull)
      (fun error =>
         let! _ := console_log "Network error during token refresh:" in
         let! _ := toast {| title := "Network Error";
                            description :=
                              VStr "Could not refresh session. Please check your connection.";
                            variant := "destructive" |} in
         let! _ := set_location_href "/login" in
         ret VNull).

Definition authentication_failed : response :=
  new_Response (VObj [("detail", VStr "Authentication failed, please log in.")]) 401.

Definition apiRequest (u : string) (opts : options) : M response :=
  let! token := getItem "access_token" in
  let makeRequest (currentAccessToken : value) : M response :=
    fetch (makeRequest_init u opts currentAccessToken) in
  let! response := makeRequest token in
  if status response =? 401 then
    let! newToken := refreshToken in
    if truthy newToken then
      let! response := makeRequest newToken in
      ret response
    else
      ret authentication_failed
  else
    ret response.

Record credentials : Type := mkCredentials {
  email : value;
  password : value;
  twoFactorToken : value;
  backupCode : value;
}.

Definition login_request (c : credentials) : request :=
  json_post "http://127.0.0.1:8000/api/auth/login/"
    (VObj [("email", email c);
           ("password", password c);
           ("two_factor_token", twoFactorToken c);
           ("backup_code", backupCode c)]).

(** The tail shared by the operations of the module:
    [const error = await handleApiError(response); return { success: false, error }] *)
Definition failure_of (r : response) : M value :=
  let! error := lift (handleApiError r) in
  ret (VObj [("success", VBool false); ("error", error)]).

(** [login] reads the body of a 400 response itself; when it then falls
    through to [handleApiError] the classifier gets the same response
    object, its body already read. *)
Definition login (c : credentials) : M value :=
  let! response := fetch (login_request c) in
  if ok response then
    let! data := lift (json response) in
    let! access_token := lift (get data "access_token") in
    let! _ := setItem "access_token" access_token in
    let! refresh_token := lift (get data "refresh_token") in
    let! _ := setItem "refresh_token" refresh_token in
    ret (VObj [("success", VBool true); ("data", data)])
  else
    if status response =? 400 then
      let! error := lift (json response) in
      let! requires_2fa := lift (get error "requires_2fa") in
      if truthy requires_2fa then
        ret (VObj [("success", VBool false); ("requires2FA", VBool true)])
      else
        failure_of (consumed response)
    else
      failure_of response.

Definition logout_options (refresh_token : value) : options :=
  {| opt_method := Some "POST";
     opt_body := Some (JSONText (VObj [("refresh_token", refresh_token)]));
     opt_headers := ∅;
     opt_rest := ∅ |}.

Definition logout : M unit :=
  let! refresh_token := getItem "refresh_token" in
  let! _ :=
    if truthy refresh_token then
      try_catch
        (let! _ := apiRequest "http://127.0.0.1:8000/api/auth/logout/"
                     (logout_options refresh_token) in
         ret tt)
        (fun error => console_log "Logout API call failed:")
    else ret tt in
  let! _ := removeItem "access_token" in
  let! _ := removeItem "refresh_token" in
  set_location_href "/".

End Client.

(** ** Vocabulary of the properties *)

(** The refresh endpoint answers the request for [rt] from [w] with a
    status outside 200..299, or the call fails on the network. *)
Definition refresh_endpoint_fails (net : network) (w : world) (rt : string) : Prop :=
  match net (fetched w) (refresh_request (VStr rt)) with
  | None => True
  | Some r => ok r = false
  end.

(** The refresher's failure outcome from [w], the refresh request sent or
    not: [null], one redirect to the login page, the store as it was. *)
Definition refresh_failed (w w' : world) (res : result value) : Prop :=
  res = Ok VNull /\
  location_href w' = (location_href w ++ ["/login"])%list /\
  localStorage w' = localStorage w.

(** The requests one run of the refresher from [w] sends: the refresh
    request when the store holds a non-empty refresh token, none
    otherwise. *)
Definition refresh_requests (w : world) : list request :=
  match localStorage w !! "refresh_token" with
  | Some rt => if String.eqb rt "" then [] else [refresh_request (VStr rt)]
  | None => []
  end.

(** The first request of a gateway call from [w]. *)
Definition original_request (u : string) (opts : options) (w : world) : request :=
  makeRequest_init u opts (item (localStorage w) "access_token").

(** ** Reading results *)

Definition nullish (v : value) : bool :=
  match v with
  | VUndefined | VNull => true
  | _ => false
  end.

(** [v.k] where [v] is known not to be [null] or [undefined]. *)
Definition prop (v : value) (k : string) : value :=
  match get v k with
  | Ok x => x
  | Throw _ => VUndefined
  end.

(** The kinds of the specification's Classified Error, read off the object
    [handleApiError] returns the way the pages do: they test
    [error.isRateLimited], then [error.isLocked], and treat the rest as
    the generic case.  The specification names Validation a generic error
    that carries a non-empty [errors] map. *)
Inductive kind : Type := RateLimited | Locked | Validation | Generic.

Definition spec_kind (error : value) : kind :=
  if truthy (prop error "isRateLimited") then RateLimited
  else if truthy (prop error "isLocked") then Locked
  else match prop error "errors" with
       | VObj (_ :: _) => Validation
       | _ => Generic
       end.

(** ** Sample data *)

(** A response sample: status 500 with an HTML error page as body. *)
Definition html_error_page : response :=
  {| status := 500; body := None; bodyUsed := false |}.

(** A 429 answer whose body is the JSON text [null]. *)
Definition null_body_429 : response :=
  {| status := 429; body := Some VNull; bodyUsed := false |}.

Definition rate_limited_body : value :=
  VObj [("detail", VStr "Too many attempts.");
        ("retry_after", VNum 30);
        ("retry_after_human", VStr "30 seconds")].

Definition rate_limited_sample : response :=
  {| status := 429; body := Some rate_limited_body; bodyUsed := false |}.

(** A 400 answer whose [detail] is present and empty. *)
Definition empty_detail_body : value := VObj [("detail", VStr "")].

Definition empty_detail_400 : response :=
  {| status := 400; body := Some empty_detail_body; bodyUsed := false |}.

Definition validation_body : value :=
  VObj [("detail", VStr "Invalid input.");
        ("errors", VObj [("email", VArr [VStr "Enter a valid email address."])])].

Definition validation_400 : response :=
  {| status := 400; body := Some validation_body; bodyUsed := false |}.

(** A browser that holds both tokens and has done nothing yet. *)
Definition signed_in : world :=
  {| localStorage := <["access_token" := "old"]> (<["refresh_token" := "r1"]> ∅);
     location_href := [];
     toasts := [];
     console := [];
     fetched := [] |}.

(** A browser with an empty store. *)
Definition signed_out : world :=
  {| localStorage := ∅;
     location_href := [];
     toasts := [];
     console := [];
     fetched := [] |}.

(** A backend that answers everything with 401. *)
Definition always_401 : network :=
  fun _ _ => Some {| status := 401;
                     body := Some (VObj [("detail", VStr "Token is invalid or expired.")]);
                     bodyUsed := false |}.

(** A network that is down. *)
Definition offline : network := fun _ _ => None.

(** A call without options, as [apiRequest(url)]. *)
Definition no_options : options :=
  {| opt_method := None; opt_body := None; opt_headers := ∅; opt_rest := ∅ |}.

(** A call that brings its own credentials. *)
Definition own_authorization : options :=
  {| opt_method := Some "GET";
     opt_body := None;
     opt_headers := {["Authorization" := VStr "Basic Zm9vOmJhcg=="]};
     opt_rest := ∅ |}.

Definition fresh_tokens : value :=
  VObj [("access_token", VStr "new"); ("refresh_token", VStr "r2")].

(** A backend that rejects the first request with 401, then grants the
    refresh, then serves whatever comes. *)
Definition refreshing_backend : network :=
  fun history _ =>
    match length history with
    | O => Some {| status := 401; body := Some (VObj []); bodyUsed := false |}
    | S O => Some {| status := 200; body := Some fresh_tokens; bodyUsed := false |}
    | _ => Some {| status := 200; body := Some (VArr []); bodyUsed := false |}
    end.

Definition profile_url : string := "http://127.0.0.1:8000/api/users/me/".

Definition nurse : credentials :=
  {| email := VStr "nurse@example.com";
     password := VStr "correct horse";
     twoFactorToken := VUndefined;
     backupCode := VUndefined |}.

Definition second_factor_body : value :=
  VObj [("detail", VStr "Two-factor authentication required.");
        ("requires_2fa", VBool true)].

(** A backend whose login answers 400 and asks for the second factor. *)
Definition second_factor_backend : network :=
  fun _ _ => Some {| status := 400; body := Some second_factor_body; bodyUsed := false |}.

(** ** The rest of the client *)

(** The object literal [{ method, body: JSON.stringify(payload) }] the
    operations hand to [apiRequest]; [None] when the literal has no
    [body]. *)
Definition method_options (m : string) (payload : option value) : options :=
  {| opt_method := Some m;
     opt_body := JSONText <$> payload;
     opt_headers := ∅;
     opt_rest := ∅ |}.

(** [try { ... } finally { ... }]: the finalizer runs however the block
    ended; the block's outcome stands unless the finalizer throws. *)
Definition try_finally {A} (m : M A) (finalizer : M unit) : M A :=
  fun w =>
    match m w with
    | (r, w') =>
        match finalizer w' with
        | (Ok _, w'') => (r, w'')
        | (Throw e, w'') => (Throw e, w'')
        end
    end.

Section Operations.

Variable net : network.

(** *** Operations that call [fetch] themselves *)

Definition register (userData : value) : M value :=
  let! email := lift (get userData "email") in
  let! full_name := lift (get userData "fullName") in
  let! password := lift (get userData "password") in
  let! confirm_password := lift (get userData "confirmPassword") in
  let! response :=
    fetch net (json_post "http://127.0.0.1:8000/api/auth/register/"
                 (VObj [("email", email);
                        ("full_name", full_name);
                        ("password", password);
                        ("confirm_password", confirm_password)])) in
  if ok response then
    let! data := lift (json response) in
    ret (VObj [("success", VBool true); ("data", data)])
  else failure_of response.

Definition verifyEmail (token : value) : M value :=
  let! response :=
    fetch net (json_post "http://127.0.0.1:8000/api/auth/verify-email/"
                 (VObj [("token", token)])) in
  if ok response then ret (VObj [("success", VBool true)])
  else failure_of response.

Definition forgotPassword (email : value) : M value :=
  let! response :=
    fetch net (json_post "http://127.0.0.1:8000/api/auth/forgot-password/"
                 (VObj [("email", email)])) in
  if ok response then ret (VObj [("success", VBool true)])
  else failure_of response.

Definition resetPassword (token newPassword : value) : M value :=
  let! response :=
    fetch net (json_post "http://127.0.0.1:8000/api/auth/reset-password/confirm/"
                 (VObj [("token", token);
                        ("new_password", newPassword);
                        ("confirm_new_password", newPassword)])) in
  if ok response then ret (VObj [("success", VBool true)])
  else failure_of response.

Definition emergencyDisable2FA (email password : value) : M value :=
  let! response :=
    fetch net (json_post "http://127.0.0.1:8000/api/auth/2fa/emergency-disable/"
                 (VObj [("email", email); ("password", password)])) in
  if ok response then
    let! data := lift (json response) in
    ret (VObj [("success", VBool true); ("data", data)])
  else failure_of response.

(** *** Operations that go through the gateway *)

Definition logoutAll : M unit :=
  try_finally
    (try_catch
       (let! _ := apiRequest net "http://127.0.0.1:8000/api/auth/logout-all/"
                    (method_options "POST" None) in
        ret tt)
       (fun error => console_log "Logout All API call failed:"))
    (let! _ := removeItem "access_token" in
     let! _ := removeItem "refresh_token" in
     set_location_href "/login").

Definition changePassword (passwordData : value) : M value :=
  let! current_password := lift (get passwordData "currentPassword") in
  let! new_password := lift (get passwordData "newPassword") in
  let! confirm_new_password := lift (get passwordData "confirmNewPassword") in
  let! response :=
    apiRequest net "http://127.0.0.1:8000/api/auth/change-password/"
      (method_options "POST"
         (Some (VObj [("current_password", current_password);
                      ("new_password", new_password);
                      ("confirm_new_password", confirm_new_password)]))) in
  if ok response then ret (VObj [("success", VBool true)])
  else failure_of response.

Definition enable2FA : M value :=
  let! response :=
    apiRequest net "http://127.0.0.1:8000/api/auth/2fa/enable/"
      (method_options "POST" None) in
  if ok response then
    let! data := lift (json response) in
    let! qr_code := lift (get data "qr_code") in
    let! secret := lift (get data "secret") in
    let! instructions := lift (get data "instructions") in
    ret (VObj [("success", VBool true);
               ("qrCode", qr_code);
               ("secret", secret);
               ("instructions", instructions)])
  else failure_of response.

Definition confirm2FA (token : value) : M value :=
  let! response :=
    apiRequest net "/api/auth/2fa/confirm/"
      (method_options "POST" (Some (VObj [("token", token)]))) in
  if ok response then ret (VObj [("success", VBool true)])
  else failure_of response.

Definition disable2FA (password token : value) : M value :=
  let! response :=
    apiRequest net "http://127.0.0.1:8000/api/auth/2fa/disable/"
      (method_options "POST"
         (Some (VObj [("password", password); ("token", token)]))) in
  if ok response then ret (VObj [("success", VBool true)])
  else failure_of response.

Definition generateBackupCodes : M value :=
  let! response :=
    apiRequest net "http://127.0.0.1:8000/api/auth/2fa/backup-codes/"
      (method_options "POST" None) in
  if ok response then
    let! data := lift (json response) in
    let! backup_codes := lift (get data "backup_codes") in
    let! message := lift (get data "message") in
    ret (VObj [("success", VBool true);
               ("backupCodes", backup_codes);
               ("message", message)])
  else failure_of response.

Definition get2FAStatus : M value :=
  let! response :=
    apiRequest net "http://127.0.0.1:8000/api/auth/2fa/status/" no_options in
  if ok response then
    let! data := lift (json response) in
    ret (VObj [("success", VBool true); ("data", data)])
  else failure_of response.

Definition getUserProfile : M value :=
  let! response :=
    apiRequest net "http://127.0.0.1:8000/api/users/me/" no_options in
  if ok response then
    let! data := lift (json response) in
    ret (VObj [("success", VBool true); ("data", data)])
  else failure_of response.

Definition updateProfile (profileData : value) : M value :=
  let! response :=
    apiRequest net "http://127.0.0.1:8000/api/me/update/"
      (method_options "PUT" (Some profileData)) in
  if ok response then
    let! data := lift (json response) in
    ret (VObj [("success", VBool true); ("data", data)])
  else failure_of response.

Definition getAccountStatus : M value :=
  let! response := apiRequest net "/api/auth/account-status/" no_options in
  if ok response then
    let! data := lift (json response) in
    ret (VObj [("success", VBool true); ("data", data)])
  else failure_of response.

Definition deleteAccount (password : value) : M value :=
  let! response :=
    apiRequest net "http://127.0.0.1:8000/api/auth/delete-account/"
      (method_options "POST"
         (Some (VObj [("password", password);
                      ("confirm_deletion", VBool true)]))) in
  if ok response then
    let! data := lift (json response) in
    let! deletion_scheduled_for := lift (get data "deletion_scheduled_for") in
    ret (VObj [("success", VBool true);
               ("deletionScheduledFor", deletion_scheduled_for)])
  else failure_of response.

Definition cancelDeletion (password : value) : M value :=
  let! response :=
    apiRequest net "http://127.0.0.1:8000/api/auth/cancel-deletion/"
      (method_options "POST" (Some (VObj [("password", password)]))) in
  if ok response then ret (VObj [("success", VBool true)])
  else failure_of response.

Definition deleteAccountImmediate (password : value) : M value :=
  let! response :=
    apiRequest net "http://127.0.0.1:8000/api/auth/delete-account-immediate/"
      (method_options "POST"
         (Some (VObj [("password", password);
                      ("confirm_deletion", VBool true)]))) in
  if ok response then
    let! _ := removeItem "access_token" in
    let! _ := removeItem "refresh_token" in
    let! _ := set_location_href "/goodbye" in
    ret (VObj [("success", VBool true)])
  else failure_of response.

(** *** The session context ([AuthProvider]) *)

(** The React state of the provider. *)
Record auth_state : Type := mkAuthState {
  user : value;
  loading : bool;
}.

(** [loadUser], the effect run once when the provider mounts.  Its only
    step that can throw, [getUserProfile], comes before every state
    setter, so a [Throw] result means that no setter ran: the state is
    still the one [loadUser] started from. *)
Definition loadUser (s : auth_state) : M auth_state :=
  let! token := getItem "access_token" in
  let! s1 :=
    if truthy token then
      let! result := getUserProfile in
      let! success := lift (get result "success") in
      if truthy success then
        let! data := lift (get result "data") in
        ret {| user := data; loading := loading s |}
      else
        let! _ := removeItem "access_token" in
        let! _ := removeItem "refresh_token" in
        ret {| user := VNull; loading := loading s |}
    else ret s in
  ret {| user := user s1; loading := false |}.

End Operations.

(** *** The rate-limit countdown ([RateLimitMessage]) *)




(** *** The progress page ([ClientProgressPage]) *)

(** [a === b].  Two arrays or objects are equal only when they are the
    same object; the operands on this page are literals and members of
    different parsed responses, which never are. *)
Definition strict_equals (a b : value) : bool :=
  match a, b with
  | VUndefined, VUndefined => true
  | VNull, VNull => true
  | VBool x, VBool y => Bool.eqb x y
  | VNum x, VNum y => x =? y
  | VStr x, VStr y => String.eqb x y
  | _, _ => false
  end.

(** [Array.prototype.find] with a callback that may throw: the first
    element the callback accepts, [undefined] when there is none. *)
Fixpoint find_value (callback : value -> result bool) (l : list value)
  : result value :=
  match l with
  | [] => Ok VUndefined
  | p :: rest =>
      let? found := callback p in
      if found then Ok p else find_value callback rest
  end.

(** [Array.prototype.findIndex], from index [i] on: [-1] when no element
    is accepted. *)
Fixpoint findIndex_from (i : Z) (callback : value -> result bool) (l : list value)
  : result Z :=
  match l with
  | [] => Ok (-1)
  | p :: rest =>
      let? found := callback p in
      if found then Ok i else findIndex_from (i + 1) callback rest
  end.

(** [(p) => p.course_id === courseId] *)
Definition same_course (courseId : value) (p : value) : result bool :=
  let? course_id := get p "course_id" in
  Ok (strict_equals course_id courseId).

(** [(p) => p.course_id === courseId && p.user_id === user.id] *)
Definition same_course_and_user (courseId user : value) (p : value) : result bool :=
  let? course_id := get p "course_id" in
  if strict_equals course_id courseId then
    let? user_id := get p "user_id" in
    let? id := get user "id" in
    Ok (strict_equals user_id id)
  else Ok false.

Definition getCourseProgress (userProgress : list value) (courseId : value)
  : result value :=
  let? progress := find_value (same_course courseId) userProgress in
  if truthy progress then get progress "progress_percentage" else Ok (VNum 0).

Fixpoint chars (s : string) : list value :=
  match s with
  | EmptyString => []
  | String a rest => VStr (String a EmptyString) :: chars rest
  end.

(** The own enumerable properties an object spread [{ ...v }] copies:
    those of an object, the indexed elements of an array or a string,
    none for the other primitives. *)
Definition spread (v : value) : list (string * value) :=
  match v with
  | VObj props => props
  | VArr items => imap (fun (i : nat) x => (pretty i, x)) items
  | VStr s => imap (fun (i : nat) x => (pretty i, x)) (chars s)
  | _ => []
  end.

(** A member [k: v] written in an object literal after a spread: it
    replaces the member of that name where it stands, or is added last. *)
Fixpoint set_prop (k : string) (v : value) (props : list (string * value))
  : list (string * value) :=
  match props with
  | [] => [(k, v)]
  | (k', v') :: rest =>
      if String.eqb k k' then (k', v) :: rest else (k', v') :: set_prop k v rest
  end.

(** The entry written at the index found:
    [{ ...entry, progress_percentage: data.progress_percentage,
       completed_at: data.completed_at }] *)
Definition merged_entry (entry data : value) : result value :=
  let? progress_percentage := get data "progress_percentage" in
  let? completed_at := get data "completed_at" in
  Ok (VObj (set_prop "completed_at" completed_at
              (set_prop "progress_percentage" progress_percentage (spread entry)))).

(** The updater [handleMarkComplete] gives to [setUserProgress] after a
    2xx answer [data]. *)
Definition updateUserProgress (courseId user data : value) (prevProgress : list value)
  : result (list value) :=
  let? existingIndex :=
    findIndex_from 0 (same_course_and_user courseId user) prevProgress in
  if -1 <? existingIndex then
    match prevProgress !! Z.to_nat existingIndex with
    | Some entry =>
        let? updated := merged_entry entry data in
        Ok (<[Z.to_nat existingIndex := updated]> prevProgress)
    | None => Ok prevProgress   (* not reached: an index found is in range *)
    end
  else Ok (prevProgress ++ [data])%list.

(** ** More vocabulary *)

(** Decimal digits, the characters of an array index. *)
Definition is_digit (a : Ascii.ascii) : bool :=
  (48 <=? Ascii.nat_of_ascii a)%nat && (Ascii.nat_of_ascii a <=? 57)%nat.

Fixpoint all_digits (s : string) : bool :=
  match s with
  | EmptyString => true
  | String a rest => is_digit a && all_digits rest
  end.


(** [n] is the first index of [l] whose element the callback accepts, and
    the callback throws on none before it. *)
Definition first_match (callback : value -> result bool) (l : list value)
    (n : nat) (entry : value) : Prop :=
  l !! n = Some entry /\
  callback entry = Ok true /\
  forall (j : nat) q, (j < n)%nat -> l !! j = Some q -> callback q = Ok false.

(** The backend answers every request with 401: the access token and the
    refresh token are both refused. *)
Definition session_expired (net : network) : Prop :=
  forall history req, exists r, net history req = Some r /\ status r = 401.

(** What an operation reports when the gateway gave up. *)
Definition authentication_failure : value :=
  VObj [("success", VBool false);
        ("error",
         VObj [("isRateLimited", VBool false);
               ("isLocked", VBool false);
               ("message", VStr "Authentication failed, please log in.");
               ("errors", VObj [])])].

(** The backend answers every request 2xx with a body that is not JSON,
    as a 204 with no content does. *)
Definition answers_without_content (net : network) : Prop :=
  forall history req,
    exists r, net history req = Some r /\ ok r = true /\ body r = None /\
              bodyUsed r = false.

(** ** More sample data *)


(** A backend that answers everything with 200 and the new token pair. *)
Definition granting_backend : network :=
  fun _ _ => Some {| status := 200; body := Some fresh_tokens; bodyUsed := false |}.

Definition server_error_body : value := VObj [("detail", VStr "Server error.")].

(** A backend that answers everything with 500. *)
Definition failing_backend : network :=
  fun _ _ => Some {| status := 500; body := Some server_error_body; bodyUsed := false |}.

Definition bad_credentials_body : value :=
  VObj [("detail", VStr "Invalid email or password.")].

(** A backend whose login answers 400 without asking for a second factor. *)
Definition bad_credentials_backend : network :=
  fun _ _ => Some {| status := 400; body := Some bad_credentials_body; bodyUsed := false |}.

(** A backend that answers everything with 204 and an empty body. *)
Definition no_content_backend : network :=
  fun _ _ => Some {| status := 204; body := None; bodyUsed := false |}.

Definition profile_body : value :=
  VObj [("id", VNum 7); ("email", VStr "nurse@example.com"); ("role", VStr "student")].

(** A backend that serves the profile. *)
Definition profile_backend : network :=
  fun _ _ => Some {| status := 200; body := Some profile_body; bodyUsed := false |}.


Definition new_user : value :=
  VObj [("email", VStr "nurse@example.com");
        ("fullName", VStr "Florence N.");
        ("password", VStr "correct horse");
        ("confirmPassword", VStr "correct horse")].

(** A browser that holds both tokens and a preference of its own. *)
Definition with_preferences : world :=
  {| localStorage :=
       <["theme" := "dark"]> (<["access_token" := "old"]> (<["refresh_token" := "r1"]> ∅));
     location_href := [];
     toasts := [];
     console := [];
     fetched := [] |}.

Definition course_3_unowned : value :=
  VObj [("course_id", VNum 3); ("progress_percentage", VNum 0)].

Definition course_3_mine : value :=
  VObj [("course_id", VNum 3); ("user_id", VNum 7);
        ("progress_percentage", VNum 0); ("completed_at", VNull)].

Definition course_5_mine : value :=
  VObj [("course_id", VNum 5); ("user_id", VNum 7);
        ("progress_percentage", VNum 100); ("completed_at", VStr "2024-05-01")].

Definition course_3_completed : value :=
  VObj [("course_id", VNum 3); ("user_id", VNum 7);
        ("progress_percentage", VNum 100); ("completed_at", VStr "2024-06-01")].

Definition student : value := VObj [("id", VNum 7); ("email", VStr "nurse@example.com")].

(** The provider's state when it mounts. *)
Definition mounting : auth_state := {| user := VNull; loading := true |}.

(** * Properties *)

(** ** Values *)

Example ToString_array :
  ToString (VArr [VNum 1; VNull; VStr "a"; VArr [VBool true; VUndefined]]) = "1,,a,true,".
Proof. reflexivity. Qed.

Example ToString_number : ToString (VNum (-42)) = "-42".
Proof. reflexivity. Qed.

Example falsy_values :
  map truthy [VUndefined; VNull; VBool false; VNum 0; VStr ""] = [false; false; false; false; false].
Proof. reflexivity. Qed.

Example truthy_values :
  map truthy [VBool true; VNum 7; VStr "0"; VArr []; VObj []] = [true; true; true; true; true].
Proof. reflexivity. Qed.

Example getItem_absent : item ∅ "access_token" = VNull.
Proof. reflexivity. Qed.

(** ** The error classifier *)

Lemma get_not_nullish (v : value) (k : string) :
  nullish v = false -> get v k = Ok (prop v k).
Proof. destruct v; simpl; intros H; try discriminate; reflexivity. Qed.

(** C2, as stated, fails: on a body that is not JSON the classifier throws
    the parse failure instead of returning a classified error. *)
Lemma handleApiError_unparseable_counterexample :
  body html_error_page = None /\
  handleApiError html_error_page = Throw SyntaxError /\
  is_ok (handleApiError html_error_page) = false.
Proof. repeat split. Qed.

(** C2, amended: for every response whose body is not parseable JSON,
    [handleApiError] throws; the failure of [response.json()] reaches the
    caller (a [SyntaxError], or the [TypeError] of a body already read) and
    no classified error is returned, whatever the status. *)
Theorem handleApiError_unparseable_throws (r : response) :
  body r = None ->
  handleApiError r =
    Throw (if bodyUsed r then TypeError_bodyUsed else SyntaxError).
Proof.
  intros Hbody. unfold handleApiError, json. rewrite Hbody.
  destruct (status r =? 429), (status r =? 423), (bodyUsed r); reflexivity.
Qed.

Lemma handleApiError_unparseable_throws_witness :
  handleApiError html_error_page = Throw SyntaxError.
Proof. apply (handleApiError_unparseable_throws html_error_page). reflexivity. Defined.

(** C5, as stated, fails: the text [null] is a JSON body, and on it the
    classifier throws at [data.detail] instead of yielding a result. *)
Lemma handleApiError_null_body_counterexample :
  status null_body_429 = 429 /\
  json null_body_429 = Ok VNull /\
  handleApiError null_body_429 = Throw TypeError_nullish.
Proof. repeat split. Qed.

(** C5, amended: for every response whose unread body parses to a JSON
    value other than [null], status 429 yields the rate-limited object
    (message = body.detail, retryAfter = body.retry_after, unmodified) and
    status 423 yields the locked object (message = body.detail), whatever
    else the body holds. *)
Theorem handleApiError_429_423 (r : response) (data : value) :
  json r = Ok data ->
  nullish data = false ->
  (status r = 429 ->
     handleApiError r =
       Ok (VObj [("isRateLimited", VBool true);
                 ("message", prop data "detail");
                 ("retryAfter", prop data "retry_after");
                 ("retryAfterHuman", prop data "retry_after_human")]) /\
     (forall e, handleApiError r = Ok e ->
        spec_kind e = RateLimited /\
        prop e "message" = prop data "detail" /\
        prop e "retryAfter" = prop data "retry_after")) /\
  (status r = 423 ->
     handleApiError r =
       Ok (VObj [("isLocked", VBool true); ("message", prop data "detail")]) /\
     (forall e, handleApiError r = Ok e ->
        spec_kind e = Locked /\ prop e "message" = prop data "detail")).
Proof.
  intros Hjson Hdata. unfold handleApiError.
  split; intros Hst; rewrite Hst; simpl; rewrite Hjson; simpl;
    rewrite !(get_not_nullish _ _ Hdata); simpl;
    (split; [reflexivity | intros e [= <-]; repeat split]).
Qed.

Lemma handleApiError_429_423_witness :
  json rate_limited_sample = Ok rate_limited_body /\
  nullish rate_limited_body = false /\
  status rate_limited_sample = 429 /\
  handleApiError rate_limited_sample =
    Ok (VObj [("isRateLimited", VBool true);
              ("message", VStr "Too many attempts.");
              ("retryAfter", VNum 30);
              ("retryAfterHuman", VStr "30 seconds")]).
Proof.
  do 3 (split; [reflexivity |]).
  exact (proj1 (proj1 (handleApiError_429_423 rate_limited_sample rate_limited_body
                         eq_refl eq_refl) eq_refl)).
Defined.

(** C6, as stated, fails: the fallback replaces any falsy [detail], not
    only an absent one.  Here [detail] is present (the empty string) and
    the message is the fallback string, not body.detail. *)
Lemma handleApiError_message_counterexample :
  status empty_detail_400 <> 429 /\
  status empty_detail_400 <> 423 /\
  json empty_detail_400 = Ok empty_detail_body /\
  lookup_prop "detail" [("detail", VStr "")] = Some (VStr "") /\
  exists e, handleApiError empty_detail_400 = Ok e /\
            prop e "message" = VStr fallback_message /\
            prop e "message" <> prop empty_detail_body "detail".
Proof.
  do 2 (split; [discriminate |]). do 2 (split; [reflexivity |]).
  eexists. split; [reflexivity |]. split; [reflexivity | discriminate].
Qed.

(** C6, amended: for every response whose unread body parses to a JSON
    value other than [null] and whose status is neither 429 nor 423, the
    classifier yields the object with both flags false (Generic, or
    Validation when [errors] is a non-empty map), whose message is
    body.detail when that is truthy and the fallback string
    ["An unexpected error occurred."] when it is absent or otherwise falsy
    ([null], the empty string, [0], [false]), and whose [errors] is
    body.errors, or the empty object when that is absent or falsy. *)
Theorem handleApiError_other (r : response) (data : value) :
  json r = Ok data ->
  nullish data = false ->
  status r <> 429 ->
  status r <> 423 ->
  let message :=
    if truthy (prop data "detail") then prop data "detail"
    else VStr "An unexpected error occurred." in
  let errors :=
    if truthy (prop data "errors") then prop data "errors" else VObj [] in
  handleApiError r =
    Ok (VObj [("isRateLimited", VBool false);
              ("isLocked", VBool false);
              ("message", message);
              ("errors", errors)]) /\
  (forall e, handleApiError r = Ok e ->
     spec_kind e = match prop data "errors" with
                   | VObj (_ :: _) => Validation
                   | _ => Generic
                   end /\
     prop e "message" = message /\
     (prop data "detail" = VUndefined ->
        prop e "message" = VStr "An unexpected error occurred.")).
Proof.
  intros Hjson Hdata H429 H423 message errors. unfold handleApiError.
  rewrite (proj2 (Z.eqb_neq _ _) H429), (proj2 (Z.eqb_neq _ _) H423).
  rewrite Hjson. simpl. rewrite !(get_not_nullish _ _ Hdata). simpl.
  split; [reflexivity |].
  intros e [= <-]. split; [| split].
  - unfold spec_kind. unfold prop at 1 2 3. simpl. unfold js_or.
    destruct (prop data "errors") as [| | [|] | n | str | | [|]]; simpl;
      try reflexivity.
    + destruct (n =? 0); reflexivity.
    + destruct (String.eqb str ""); reflexivity.
  - reflexivity.
  - intros Hdetail. unfold prop at 1. simpl. unfold js_or.
    rewrite Hdetail. reflexivity.
Qed.

Lemma handleApiError_other_witness :
  json validation_400 = Ok validation_body /\
  nullish validation_body = false /\
  status validation_400 <> 429 /\
  status validation_400 <> 423 /\
  handleApiError validation_400 =
    Ok (VObj [("isRateLimited", VBool false);
              ("isLocked", VBool false);
              ("message", VStr "Invalid input.");
              ("errors",
               VObj [("email", VArr [VStr "Enter a valid email address."])])]).
Proof.
  do 2 (split; [reflexivity |]). do 2 (split; [discriminate |]).
  refine (proj1 (handleApiError_other validation_400 validation_body
                   eq_refl eq_refl _ _)); discriminate.
Defined.

(** ** The token refresher *)

Ltac break_and :=
  repeat match goal with
         | H : _ /\ _ |- _ => destruct H
         end.

Section Refresher.

Variable net : network.

Lemma handleApiError_object (r : response) (e : value) :
  handleApiError r = Ok e -> exists props, e = VObj props.
Proof.
  unfold handleApiError.
  destruct (status r =? 429); [| destruct (status r =? 423)];
    destruct (json r) as [data |]; simpl; try discriminate;
    destruct data; simpl; try discriminate; intros [= <-]; eauto.
Qed.

(** Everything [refreshToken] can do, by cases on the store and the
    network. *)
Lemma refreshToken_spec (w : world) :
  let res := fst (refreshToken net w) in
  let w' := snd (refreshToken net w) in
  match localStorage w !! "refresh_token" with
  | None => fetched w' = fetched w /\ refresh_failed w w' res
  | Some rt =>
      if String.eqb rt "" then fetched w' = fetched w /\ refresh_failed w w' res
      else
        fetched w' = (fetched w ++ [refresh_request (VStr rt)])%list /\
        match net (fetched w) (refresh_request (VStr rt)) with
        | None => refresh_failed w w' res
        | Some r =>
            if ok r then
              match json r with
              | Ok data =>
                  if nullish data then refresh_failed w w' res
                  else
                    res = Ok (prop data "access_token") /\
                    location_href w' = location_href w /\
                    localStorage w' =
                      <["refresh_token" := ToString (prop data "refresh_token")]>
                        (<["access_token" := ToString (prop data "access_token")]>
                           (localStorage w))
              | Throw _ => refresh_failed w w' res
              end
            else refresh_failed w w' res
        end
  end.
Proof.
  unfold refreshToken, refresh_failed, bind, getItem, item. simpl.
  destruct (localStorage w !! "refresh_token") as [rt |] eqn:Hrt; simpl;
    [| auto].
  destruct (String.eqb rt "") eqn:Hempty; simpl; [auto |].
  unfold try_catch, bind, fetch, answer. simpl.
  destruct (net (fetched w) (refresh_request (VStr rt))) as [r |]; simpl;
    [| auto].
  destruct (ok r); simpl.
  - unfold lift. destruct (json r) as [data | e]; simpl; [| auto].
    destruct data; simpl; auto.
  - unfold lift. destruct (handleApiError r) as [e | x] eqn:He; simpl; [| auto].
    destruct (handleApiError_object _ _ He) as [props ->]. simpl. auto.
Qed.

(** The refresher never throws. *)
Lemma refreshToken_returns (w : world) :
  exists v, fst (refreshToken net w) = Ok v.
Proof.
  pose proof (refreshToken_spec w) as H. cbv zeta in H.
  unfold refresh_failed in H.
  destruct (localStorage w !! "refresh_token") as [rt |];
    [| break_and; eauto].
  destruct (String.eqb rt ""); [break_and; eauto |].
  destruct H as [_ H].
  destruct (net _ _) as [r |]; [| break_and; eauto].
  destruct (ok r); [| break_and; eauto].
  destruct (json r) as [data |]; [| break_and; eauto].
  destruct (nullish data); break_and; eauto.
Qed.

(** C1, amended: for every invocation of the refresher with a refresh
    token in the store, when the refresh endpoint answers non-2xx or the
    network call fails, the refresher returns failure ([null]) and
    assigns the login page to [window.location.href] exactly once, having
    sent the one refresh request; it leaves the Credential Store as it
    was (it removes neither token). *)
Theorem refreshToken_endpoint_failure (w : world) (rt : string) :
  localStorage w !! "refresh_token" = Some rt ->
  rt <> "" ->
  refresh_endpoint_fails net w rt ->
  fst (refreshToken net w) = Ok VNull /\
  location_href (snd (refreshToken net w)) = (location_href w ++ ["/login"])%list /\
  localStorage (snd (refreshToken net w)) = localStorage w /\
  fetched (snd (refreshToken net w)) =
    (fetched w ++ [refresh_request (VStr rt)])%list.
Proof.
  intros Hrt Hne Hfail.
  pose proof (refreshToken_spec w) as H. cbv zeta in H.
  rewrite Hrt in H. rewrite (proj2 (String.eqb_neq rt "") Hne) in H.
  unfold refresh_endpoint_fails in Hfail. unfold refresh_failed in H.
  destruct H as [Hlog H].
  destruct (net (fetched w) (refresh_request (VStr rt))) as [r |].
  - rewrite Hfail in H. break_and. auto.
  - break_and. auto.
Qed.

(** C7: whenever the store holds no refresh token, the refresher returns
    [null] at once and assigns the login page to [window.location.href],
    and no call to [fetch] is made. *)
Theorem refreshToken_without_token (w : world) :
  localStorage w !! "refresh_token" = None ->
  fst (refreshToken net w) = Ok VNull /\
  fetched (snd (refreshToken net w)) = fetched w /\
  location_href (snd (refreshToken net w)) = (location_href w ++ ["/login"])%list.
Proof.
  intros Hrt.
  pose proof (refreshToken_spec w) as H. cbv zeta in H.
  rewrite Hrt in H. unfold refresh_failed in H. break_and. auto.
Qed.

End Refresher.

(** C1, as stated, fails: the refresh endpoint answers 401, the refresher
    returns [null] and redirects, and both tokens are still in the
    store. *)
Lemma refreshToken_keeps_tokens_counterexample :
  localStorage signed_in !! "refresh_token" = Some "r1" /\
  refresh_endpoint_fails always_401 signed_in "r1" /\
  fst (refreshToken always_401 signed_in) = Ok VNull /\
  localStorage (snd (refreshToken always_401 signed_in)) !! "access_token" = Some "old" /\
  localStorage (snd (refreshToken always_401 signed_in)) !! "refresh_token" = Some "r1" /\
  ~ credentials_cleared (snd (refreshToken always_401 signed_in)).
Proof.
  split; [reflexivity |]. split; [reflexivity |]. split; [reflexivity |].
  split; [reflexivity |]. split; [reflexivity |].
  intros [H _]. vm_compute in H. discriminate.
Qed.

Lemma refreshToken_endpoint_failure_witness :
  localStorage signed_in !! "refresh_token" = Some "r1" /\
  refresh_endpoint_fails offline signed_in "r1" /\
  fst (refreshToken offline signed_in) = Ok VNull /\
  location_href (snd (refreshToken offline signed_in)) = ["/login"] /\
  localStorage (snd (refreshToken offline signed_in)) = localStorage signed_in.
Proof.
  split; [reflexivity |]. split; [exact I |].
  destruct (refreshToken_endpoint_failure offline signed_in "r1")
    as (H1 & H2 & H3 & _); [reflexivity | discriminate | exact I |].
  auto.
Defined.

Lemma refreshToken_without_token_witness :
  localStorage signed_out !! "refresh_token" = None /\
  fst (refreshToken always_401 signed_out) = Ok VNull /\
  fetched (snd (refreshToken always_401 signed_out)) = [] /\
  location_href (snd (refreshToken always_401 signed_out)) = ["/login"].
Proof.
  split; [reflexivity |].
  exact (refreshToken_without_token always_401 signed_out eq_refl).
Defined.

(** ** The gateway *)

Section Gateway.

Variable net : network.

Lemma refreshToken_fetched (w : world) :
  fetched (snd (refreshToken net w)) = (fetched w ++ refresh_requests w)%list.
Proof.
  pose proof (refreshToken_spec net w) as H. cbv zeta in H.
  unfold refresh_requests.
  destruct (localStorage w !! "refresh_token") as [rt |].
  - destruct (String.eqb rt ""); destruct H as [-> _];
      [rewrite app_nil_r |]; reflexivity.
  - destruct H as [-> _]. rewrite app_nil_r. reflexivity.
Qed.

(** A truthy token comes out of the refresher only along its success
    path: one refresh request, no redirect. *)
Lemma refreshToken_truthy (w : world) (tok : value) :
  fst (refreshToken net w) = Ok tok ->
  truthy tok = true ->
  exists rt,
    localStorage w !! "refresh_token" = Some rt /\
    fetched (snd (refreshToken net w)) =
      (fetched w ++ [refresh_request (VStr rt)])%list /\
    location_href (snd (refreshToken net w)) = location_href w.
Proof.
  intros Hres Htok.
  pose proof (refreshToken_spec net w) as H. cbv zeta in H.
  rewrite Hres in H. unfold refresh_failed in H.
  assert (Hnull : Ok tok = Ok VNull -> False)
    by (intros [= ->]; discriminate).
  destruct (localStorage w !! "refresh_token") as [rt |];
    [| break_and; tauto].
  destruct (String.eqb rt ""); [break_and; tauto |].
  exists rt. destruct H as [Hlog H]. split; [reflexivity |]. split; [exact Hlog |].
  destruct (net _ _) as [r |]; [| break_and; tauto].
  destruct (ok r); [| break_and; tauto].
  destruct (json r) as [data |]; [| break_and; tauto].
  destruct (nullish data); break_and; tauto.
Qed.

(** The gateway, path by path. *)
Lemma apiRequest_spec (u : string) (opts : options) (w : world) :
  let original := original_request u opts w in
  let w1 := snd (fetch net original w) in
  apiRequest net u opts w =
    match net (fetched w) original with
    | None => (Throw NetworkFailure, w1)
    | Some r0 =>
        if status r0 =? 401 then
          match fst (refreshToken net w1) with
          | Ok newToken =>
              if truthy newToken then
                fetch net (makeRequest_init u opts newToken)
                  (snd (refreshToken net w1))
              else (Ok authentication_failed, snd (refreshToken net w1))
          | Throw e => (Throw e, snd (refreshToken net w1))
          end
        else (Ok r0, w1)
    end.
Proof.
  unfold apiRequest, original_request, bind, getItem, fetch, answer, ret. simpl.
  destruct (net (fetched w) _) as [r0 |]; [| reflexivity].
  destruct (status r0 =? 401); [| reflexivity].
  destruct (refreshToken net _) as [[tok | e] w2]; simpl; [| reflexivity].
  destruct (truthy tok); [| reflexivity].
  destruct (net (fetched w2) _); reflexivity.
Qed.

Lemma fetch_world (req : request) (w : world) :
  localStorage (snd (fetch net req w)) = localStorage w /\
  location_href (snd (fetch net req w)) = location_href w /\
  fetched (snd (fetch net req w)) = (fetched w ++ [req])%list /\
  fst (fetch net req w) = answer net (fetched w) req.
Proof. repeat split. Qed.

(** A first response other than 401 is returned as it is, after that one
    request. *)
Lemma apiRequest_passes_through (u : string) (opts : options) (w : world)
    (r0 : response) :
  net (fetched w) (original_request u opts w) = Some r0 ->
  status r0 <> 401 ->
  fst (apiRequest net u opts w) = Ok r0 /\
  fetched (snd (apiRequest net u opts w)) =
    (fetched w ++ [original_request u opts w])%list.
Proof.
  intros H0 Hst. rewrite (apiRequest_spec u opts w). cbv zeta.
  rewrite H0, (proj2 (Z.eqb_neq _ _) Hst). split; reflexivity.
Qed.

(** C3, amended: for every gateway call whose first response has status
    401 and whose refresh then succeeds (the refresher returns a truthy
    token), the log of the call is exactly the original request, the one
    refresh request and one retry built with the new token; the gateway
    returns the outcome of that retry as it is, whatever its status, and
    no redirect happens.  The retry's Authorization header is
    [Bearer <new token>] unless the caller's own [options.headers] holds
    an Authorization member, which then replaces it. *)
Theorem apiRequest_retries_once (u : string) (opts : options) (w : world)
    (r0 : response) (newToken : value) :
  let original := original_request u opts w in
  let w1 := snd (fetch net original w) in
  let retry := makeRequest_init u opts newToken in
  net (fetched w) original = Some r0 ->
  status r0 = 401 ->
  fst (refreshToken net w1) = Ok newToken ->
  truthy newToken = true ->
  exists rt,
    localStorage w !! "refresh_token" = Some rt /\
    fetched (snd (apiRequest net u opts w)) =
      (fetched w ++ [original; refresh_request (VStr rt); retry])%list /\
    fst (apiRequest net u opts w) =
      answer net (fetched w ++ [original; refresh_request (VStr rt)])%list retry /\
    location_href (snd (apiRequest net u opts w)) = location_href w /\
    (opt_headers opts !! "Authorization" = None ->
       headers retry !! "Authorization" =
         Some (VStr ("Bearer " +:+ ToString newToken))) /\
    (forall v, opt_headers opts !! "Authorization" = Some v ->
       headers retry !! "Authorization" = Some v).
Proof.
  cbv zeta. intros H0 H401 Hres Htok.
  destruct (refreshToken_truthy _ newToken Hres Htok) as (rt & Hrt & Hlog & Hhref).
  exists rt. rewrite (apiRequest_spec u opts w). cbv zeta.
  rewrite H0, H401, Hres, Htok. simpl Z.eqb. cbv iota.
  destruct (fetch_world (makeRequest_init u opts newToken)
              (snd (refreshToken net (snd (fetch net (original_request u opts w) w)))))
    as (_ & Hh & Hf & Ha).
  rewrite Hf, Ha, Hh, Hlog, Hhref. simpl. rewrite <- !app_assoc. simpl.
  repeat split; try assumption.
  - intros Hnone. apply lookup_union_Some_raw. right. split; [exact Hnone |].
    rewrite lookup_insert_ne by discriminate. apply lookup_insert_eq.
  - intros v Hv. apply lookup_union_Some_raw. left. exact Hv.
Qed.

(** C4: for every gateway call whose first response has status 401 and
    whose refresh then fails (the refresher returns [null], or any falsy
    value), no retry is sent: the log holds the original request and at
    most the refresher's own request, and the gateway returns the
    response it builds itself, status 401 with the fixed message. *)
Theorem apiRequest_refresh_failed (u : string) (opts : options) (w : world)
    (r0 : response) (v : value) :
  let original := original_request u opts w in
  let w1 := snd (fetch net original w) in
  net (fetched w) original = Some r0 ->
  status r0 = 401 ->
  fst (refreshToken net w1) = Ok v ->
  truthy v = false ->
  fst (apiRequest net u opts w) = Ok authentication_failed /\
  status authentication_failed = 401 /\
  json authentication_failed =
    Ok (VObj [("detail", VStr "Authentication failed, please log in.")]) /\
  fetched (snd (apiRequest net u opts w)) =
    (fetched w ++ original :: refresh_requests w)%list.
Proof.
  cbv zeta. intros H0 H401 Hres Hv.
  rewrite (apiRequest_spec u opts w). cbv zeta.
  rewrite H0, H401, Hres, Hv. simpl.
  repeat split. rewrite refreshToken_fetched. simpl.
  rewrite <- app_assoc. reflexivity.
Qed.

(** Every request of a gateway call is the original one, the refresher's,
    or a retry built by [makeRequest]. *)
Lemma apiRequest_fetched (u : string) (opts : options) (w : world) :
  exists later,
    fetched (snd (apiRequest net u opts w)) =
      (fetched w ++ original_request u opts w :: later)%list /\
    Forall (fun req => (exists rt, req = refresh_request rt) \/
                       (exists tok, req = makeRequest_init u opts tok)) later.
Proof.
  rewrite (apiRequest_spec u opts w). cbv zeta.
  set (original := original_request u opts w).
  set (w1 := snd (fetch net original w)).
  assert (Hrefresh : Forall (fun req => (exists rt, req = refresh_request rt) \/
                       (exists tok, req = makeRequest_init u opts tok))
                      (refresh_requests w1)).
  { unfold refresh_requests. destruct (localStorage w1 !! "refresh_token") as [rt |];
      [destruct (String.eqb rt "") |]; try constructor; [left; eauto | constructor]. }
  destruct (net (fetched w) original) as [r0 |];
    [| exists []; split; [reflexivity | constructor]].
  destruct (status r0 =? 401);
    [| exists []; split; [reflexivity | constructor]].
  destruct (fst (refreshToken net w1)) as [tok | e].
  - destruct (truthy tok).
    + exists (refresh_requests w1 ++ [makeRequest_init u opts tok])%list. split.
      * simpl. rewrite refreshToken_fetched. simpl.
        rewrite <- !app_assoc. reflexivity.
      * apply Forall_app. split; [exact Hrefresh |].
        constructor; [right; eauto | constructor].
    + exists (refresh_requests w1). split; [| exact Hrefresh].
      simpl. rewrite refreshToken_fetched. simpl.
      rewrite <- !app_assoc. reflexivity.
  - exists (refresh_requests w1). split; [| exact Hrefresh].
    simpl. rewrite refreshToken_fetched. simpl.
    rewrite <- !app_assoc. reflexivity.
Qed.

(** C10: the caller's headers are merged last.  For every member [k] of
    [options.headers], each request the gateway builds (the original one
    and the retry, for any token) carries the caller's value at [k], and
    every request of a gateway call is built that way, the refresher's own
    request apart.  For [k = "Authorization"] the caller's value replaces
    the bearer token read from the store; for [k = "Content-Type"] it
    replaces the gateway's JSON or FormData choice. *)
Theorem apiRequest_caller_headers_win (u : string) (opts : options) (w : world)
    (k : string) (v : value) :
  opt_headers opts !! k = Some v ->
  (forall tok, headers (makeRequest_init u opts tok) !! k = Some v) /\
  headers (original_request u opts w) !! k = Some v /\
  exists later,
    fetched (snd (apiRequest net u opts w)) =
      (fetched w ++ original_request u opts w :: later)%list /\
    Forall (fun req => (exists rt, req = refresh_request rt) \/
                       headers req !! k = Some v) later.
Proof.
  intros Hk.
  assert (Hall : forall tok, headers (makeRequest_init u opts tok) !! k = Some v).
  { intros tok. simpl. unfold request_headers.
    apply lookup_union_Some_raw. left. exact Hk. }
  split; [exact Hall |]. split; [apply Hall |].
  destruct (apiRequest_fetched u opts w) as (later & Hlog & Hlater).
  exists later. split; [exact Hlog |].
  eapply Forall_impl; [exact Hlater |].
  intros req [Hreq | [tok ->]]; [left; exact Hreq | right; apply Hall].
Qed.

End Gateway.

(** C3, as stated, fails: the first response is 401, the refresh succeeds
    with the token [new], and the one retry does not bear it; its
    Authorization header is the caller's. *)
Lemma apiRequest_retry_bearer_counterexample :
  let original := original_request profile_url own_authorization signed_in in
  let w1 := snd (fetch refreshing_backend original signed_in) in
  (status <$> refreshing_backend (fetched signed_in) original) = Some 401 /\
  fst (refreshToken refreshing_backend w1) = Ok (VStr "new") /\
  exists retry,
    fetched (snd (apiRequest refreshing_backend profile_url own_authorization signed_in)) =
      [original; refresh_request (VStr "r1"); retry] /\
    headers retry !! "Authorization" = Some (VStr "Basic Zm9vOmJhcg==") /\
    headers retry !! "Authorization" <> Some (VStr "Bearer new").
Proof.
  cbv zeta. split; [reflexivity |]. split; [reflexivity |].
  eexists. split; [reflexivity |]. split; [reflexivity |].
  vm_compute. discriminate.
Qed.

Lemma apiRequest_retries_once_witness :
  let original := original_request profile_url no_options signed_in in
  let retry := makeRequest_init profile_url no_options (VStr "new") in
  (status <$> refreshing_backend (fetched signed_in) original) = Some 401 /\
  fst (refreshToken refreshing_backend
         (snd (fetch refreshing_backend original signed_in))) = Ok (VStr "new") /\
  truthy (VStr "new") = true /\
  fetched (snd (apiRequest refreshing_backend profile_url no_options signed_in)) =
    [original; refresh_request (VStr "r1"); retry] /\
  fst (apiRequest refreshing_backend profile_url no_options signed_in) =
    Ok {| status := 200; body := Some (VArr []); bodyUsed := false |} /\
  headers retry !! "Authorization" = Some (VStr "Bearer new").
Proof.
  cbv zeta. do 3 (split; [reflexivity |]).
  destruct (apiRequest_retries_once refreshing_backend profile_url no_options
              signed_in _ (VStr "new") eq_refl eq_refl eq_refl eq_refl)
    as (rt & Hrt & Hlog & Hres & _ & Hbearer & _).
  assert (rt = "r1") as -> by (vm_compute in Hrt; congruence).
  split; [exact Hlog |]. split; [exact Hres |]. apply Hbearer. reflexivity.
Defined.

Lemma apiRequest_refresh_failed_witness :
  let original := original_request profile_url no_options signed_in in
  (status <$> always_401 (fetched signed_in) original) = Some 401 /\
  fst (refreshToken always_401 (snd (fetch always_401 original signed_in))) = Ok VNull /\
  fst (apiRequest always_401 profile_url no_options signed_in) = Ok authentication_failed /\
  fetched (snd (apiRequest always_401 profile_url no_options signed_in)) =
    [original; refresh_request (VStr "r1")].
Proof.
  cbv zeta. do 2 (split; [reflexivity |]).
  destruct (apiRequest_refresh_failed always_401 profile_url no_options
              signed_in _ VNull eq_refl eq_refl eq_refl eq_refl)
    as (Hres & _ & _ & Hlog).
  split; [exact Hres | exact Hlog].
Defined.

Lemma apiRequest_caller_headers_win_witness :
  opt_headers own_authorization !! "Authorization" = Some (VStr "Basic Zm9vOmJhcg==") /\
  headers (original_request profile_url own_authorization signed_in) !! "Authorization" =
    Some (VStr "Basic Zm9vOmJhcg==").
Proof.
  split; [reflexivity |].
  exact (proj1 (proj2 (apiRequest_caller_headers_win refreshing_backend profile_url
                         own_authorization signed_in "Authorization" _ eq_refl))).
Defined.

(** ** Login and logout *)

Section Session.

Variable net : network.

Lemma bind_Ok {A B} (m : M A) (k : A -> M B) (w : world) (a : A) (w' : world) :
  m w = (Ok a, w') -> bind m k w = k a w'.
Proof. intros H. unfold bind. rewrite H. reflexivity. Qed.

(** C8: for every login call answered by a 400 response whose body
    carries [requires_2fa: true], [login] returns
    [{ success: false, requires2FA: true }] and the Credential Store is
    what it was: no token is stored. *)
Theorem login_requires_2fa (c : credentials) (w : world) (r : response)
    (data : value) :
  net (fetched w) (login_request c) = Some r ->
  status r = 400 ->
  json r = Ok data ->
  prop data "requires_2fa" = VBool true ->
  fst (login net c w) =
    Ok (VObj [("success", VBool false); ("requires2FA", VBool true)]) /\
  prop (VObj [("success", VBool false); ("requires2FA", VBool true)]) "requires2FA"
    = VBool true /\
  localStorage (snd (login net c w)) = localStorage w.
Proof.
  intros Hnet Hst Hjson H2fa.
  unfold login, bind, fetch, answer, lift. rewrite Hnet. simpl.
  unfold ok. rewrite Hst. simpl. rewrite Hjson. simpl.
  unfold prop in H2fa. destruct (get data "requires_2fa") as [x |];
    [| discriminate].
  subst x. simpl. auto.
Qed.

(** Beside the claim: a 400 answer without [requires_2fa] makes [login]
    read the body a second time, inside [handleApiError], and that read
    throws. *)
Remark login_400_reads_body_twice (c : credentials) (w : world) (r : response)
    (data : value) :
  net (fetched w) (login_request c) = Some r ->
  status r = 400 ->
  json r = Ok data ->
  nullish data = false ->
  truthy (prop data "requires_2fa") = false ->
  fst (login net c w) = Throw TypeError_bodyUsed.
Proof.
  intros Hnet Hst Hjson Hdata H2fa.
  unfold login, bind, fetch, answer, lift. rewrite Hnet. simpl.
  unfold ok. rewrite Hst. simpl. rewrite Hjson. simpl.
  rewrite (get_not_nullish _ _ Hdata). simpl. rewrite H2fa.
  unfold failure_of, bind, lift, handleApiError. simpl. rewrite Hst. reflexivity.
Qed.

(** C9: every invocation of [logout] completes, and when it does neither
    [access_token] nor [refresh_token] is in the Credential Store,
    whatever the network did with the server-side logout call (any
    status, or a rejected [fetch]); the last navigation is to ["/"]. *)
Theorem logout_clears_tokens (w : world) :
  fst (logout net w) = Ok tt /\
  credentials_cleared (snd (logout net w)) /\
  last (location_href (snd (logout net w))) = Some "/".
Proof.
  unfold logout, credentials_cleared.
  rewrite (bind_Ok (getItem "refresh_token") _ w
             (item (localStorage w) "refresh_token") w eq_refl).
  set (rt := item (localStorage w) "refresh_token").
  assert (Hinner : exists w2,
    (if truthy rt
     then try_catch
            (let! _ := apiRequest net "http://127.0.0.1:8000/api/auth/logout/"
                         (logout_options rt) in
             ret tt)
            (fun _ => console_log "Logout API call failed:")
     else ret tt) w = (Ok tt, w2)).
  { destruct (truthy rt); [| eexists; reflexivity].
    unfold try_catch, bind.
    destruct (apiRequest net _ _ w) as [[resp | e] w2]; eexists; reflexivity. }
  destruct Hinner as [w2 Hinner].
  rewrite (bind_Ok _ _ w tt w2 Hinner).
  unfold bind, removeItem, set_location_href. simpl.
  repeat split.
  - rewrite lookup_delete_ne by discriminate. apply lookup_delete_eq.
  - apply lookup_delete_eq.
  - apply last_snoc.
Qed.

End Session.

Lemma login_requires_2fa_witness :
  (status <$> second_factor_backend (fetched signed_out) (login_request nurse)) = Some 400 /\
  prop second_factor_body "requires_2fa" = VBool true /\
  fst (login second_factor_backend nurse signed_out) =
    Ok (VObj [("success", VBool false); ("requires2FA", VBool true)]) /\
  localStorage (snd (login second_factor_backend nurse signed_out)) = ∅.
Proof.
  do 2 (split; [reflexivity |]).
  destruct (login_requires_2fa second_factor_backend nurse signed_out _
              second_factor_body eq_refl eq_refl eq_refl eq_refl)
    as (Hres & _ & Hstore).
  split; [exact Hres | exact Hstore].
Defined.

(** * Further properties of the client *)

(** ** The classifier and the refresher *)

(** Outside 429 and 423 a classified error always has something to show:
    its [message] is truthy (the body's detail or the fallback string),
    its [errors] is truthy (the body's errors or an empty object) and both
    flags are [false], whatever JSON the body holds. *)
Theorem handleApiError_other_never_blank (r : response) (e : value) :
  status r <> 429 ->
  status r <> 423 ->
  handleApiError r = Ok e ->
  truthy (prop e "message") = true /\
  truthy (prop e "errors") = true /\
  prop e "isRateLimited" = VBool false /\
  prop e "isLocked" = VBool false.
Proof.
  intros H429 H423. unfold handleApiError.
  rewrite (proj2 (Z.eqb_neq _ _) H429), (proj2 (Z.eqb_neq _ _) H423).
  destruct (json r) as [data |]; simpl; [| discriminate].
  destruct (get data "detail") as [detail |]; simpl; [| discriminate].
  destruct (get data "errors") as [errors |]; simpl; [| discriminate].
  intros [= <-]. unfold prop. simpl. unfold js_or.
  destruct (truthy detail) eqn:Hd, (truthy errors) eqn:He; auto.
Qed.

Lemma handleApiError_other_never_blank_witness :
  status empty_detail_400 <> 429 /\
  status empty_detail_400 <> 423 /\
  exists e, handleApiError empty_detail_400 = Ok e /\
            truthy (prop e "message") = true.
Proof.
  do 2 (split; [discriminate |]). eexists. split; [reflexivity |].
  refine (proj1 (handleApiError_other_never_blank empty_detail_400 _ _ _ eq_refl));
    discriminate.
Defined.

Section RefresherMore.

Variable net : network.



End RefresherMore.


(** ** The gateway, beyond the 401 paths *)

Section GatewayMore.

Variable net : network.

Lemma refresh_requests_length (w : world) : (length (refresh_requests w) <= 1)%nat.
Proof.
  unfold refresh_requests. destruct (localStorage w !! "refresh_token") as [rt |];
    [destruct (String.eqb rt "") |]; simpl; lia.
Qed.

(** No call loops: whatever the store and the network do, one gateway
    call sends at least one and at most three requests. *)
Theorem apiRequest_request_bound (u : string) (opts : options) (w : world) :
  (length (fetched w) + 1 <= length (fetched (snd (apiRequest net u opts w))) /\
   length (fetched (snd (apiRequest net u opts w))) <= length (fetched w) + 3)%nat.
Proof.
  rewrite (apiRequest_spec net u opts w). cbv zeta.
  set (w1 := snd (fetch net (original_request u opts w) w)).
  pose proof (refresh_requests_length w1) as Hlen.
  assert (H1 : length (fetched w1) = (length (fetched w) + 1)%nat)
    by (simpl; rewrite length_app; reflexivity).
  assert (H2 : length (fetched (snd (refreshToken net w1))) =
               (length (fetched w1) + length (refresh_requests w1))%nat)
    by (rewrite refreshToken_fetched, length_app; reflexivity).
  destruct (net (fetched w) _) as [r0 |]; [| simpl snd; lia].
  destruct (status r0 =? 401); [| simpl snd; lia].
  destruct (fst (refreshToken net w1)) as [tok | e]; [| simpl snd; lia].
  destruct (truthy tok); [| simpl snd; lia].
  simpl. rewrite length_app. simpl. lia.
Qed.

(** A first request that is rejected by the network, or answered with any
    status but 401, is the whole call: its outcome is the gateway's, and
    the store, the location, the toasts and the console are untouched. *)
Theorem apiRequest_first_answer_final (u : string) (opts : options) (w : world) :
  match net (fetched w) (original_request u opts w) with
  | Some r0 => status r0 <> 401
  | None => True
  end ->
  fst (apiRequest net u opts w) = answer net (fetched w) (original_request u opts w) /\
  localStorage (snd (apiRequest net u opts w)) = localStorage w /\
  location_href (snd (apiRequest net u opts w)) = location_href w /\
  toasts (snd (apiRequest net u opts w)) = toasts w /\
  console (snd (apiRequest net u opts w)) = console w /\
  fetched (snd (apiRequest net u opts w)) =
    (fetched w ++ [original_request u opts w])%list.
Proof.
  intros H. rewrite (apiRequest_spec net u opts w). cbv zeta. unfold answer.
  destruct (net (fetched w) _) as [r0 |]; [| repeat split].
  rewrite (proj2 (Z.eqb_neq _ _) H). repeat split.
Qed.

(** The gateway adds no failure of its own: when the network answers
    every request, every call returns a response. *)
Theorem apiRequest_returns_response (u : string) (opts : options) (w : world) :
  (forall history req, net history req <> None) ->
  exists r, fst (apiRequest net u opts w) = Ok r.
Proof.
  intros Hnet. rewrite (apiRequest_spec net u opts w). cbv zeta.
  set (w1 := snd (fetch net (original_request u opts w) w)).
  destruct (net (fetched w) _) as [r0 |] eqn:H0; [| destruct (Hnet _ _ H0)].
  destruct (status r0 =? 401); [| eexists; reflexivity].
  destruct (refreshToken_returns net w1) as [tok ->].
  destruct (truthy tok); [| eexists; reflexivity].
  unfold fetch, answer. simpl.
  destruct (net (fetched (snd (refreshToken net w1))) (makeRequest_init u opts tok))
    as [r |] eqn:H1; [eexists; reflexivity | destruct (Hnet _ _ H1)].
Qed.

(** Where the caller names neither header, the gateway's own are sent:
    the bearer token is the stored access token, the text [null] when the
    store has none, and the content type is JSON unless the body is a
    [FormData] object, for which the member is [undefined]. *)
Theorem apiRequest_default_headers (u : string) (opts : options) (w : world) :
  opt_headers opts !! "Authorization" = None ->
  opt_headers opts !! "Content-Type" = None ->
  headers (original_request u opts w) !! "Authorization" =
    Some (VStr ("Bearer " +:+ default "null" (localStorage w !! "access_token"))) /\
  headers (original_request u opts w) !! "Content-Type" =
    Some (if instanceof_FormData (opt_body opts) then VUndefined
          else VStr "application/json").
Proof.
  intros Hauth Hct. unfold original_request, item. simpl. unfold request_headers.
  split; apply lookup_union_Some_raw; right.
  - split; [exact Hauth |]. rewrite lookup_insert_ne by discriminate.
    rewrite lookup_insert_eq. destruct (localStorage w !! "access_token"); reflexivity.
  - split; [exact Hct |]. apply lookup_insert_eq.
Qed.


End GatewayMore.

Lemma apiRequest_first_answer_final_witness :
  fst (apiRequest failing_backend profile_url no_options signed_in) =
    Ok {| status := 500; body := Some server_error_body; bodyUsed := false |} /\
  localStorage (snd (apiRequest failing_backend profile_url no_options signed_in)) =
    localStorage signed_in.
Proof.
  destruct (apiRequest_first_answer_final failing_backend profile_url no_options
              signed_in ltac:(simpl; discriminate)) as (H1 & H2 & _).
  split; [exact H1 | exact H2].
Defined.

Lemma apiRequest_returns_response_witness :
  exists r, fst (apiRequest always_401 profile_url no_options signed_in) = Ok r.
Proof.
  apply (apiRequest_returns_response always_401 profile_url no_options signed_in).
  intros history req. discriminate.
Defined.

Lemma apiRequest_default_headers_witness :
  headers (original_request profile_url no_options signed_out) !! "Authorization" =
    Some (VStr "Bearer null") /\
  headers (original_request profile_url no_options signed_out) !! "Content-Type" =
    Some (VStr "application/json").
Proof.
  exact (apiRequest_default_headers profile_url no_options signed_out eq_refl eq_refl).
Defined.


(** ** Login, logout and the store *)

Section SessionMore.

Variable net : network.



(** A login that is not answered 2xx stores nothing: when the request is
    rejected by the network or answered outside 200..299, the store and
    the location are what they were, whatever the body holds and however
    [login] ends; a rejected request reaches the caller as an exception. *)
Theorem login_unsuccessful_keeps_store (c : credentials) (w : world) :
  match net (fetched w) (login_request c) with
  | Some r => ok r = false
  | None => True
  end ->
  localStorage (snd (login net c w)) = localStorage w /\
  location_href (snd (login net c w)) = location_href w /\
  fetched (snd (login net c w)) = (fetched w ++ [login_request c])%list /\
  (net (fetched w) (login_request c) = None ->
     fst (login net c w) = Throw NetworkFailure).
Proof.
  intros H. unfold login, bind, fetch, answer, lift. simpl.
  destruct (net (fetched w) (login_request c)) as [r |]; simpl;
    [| repeat split].
  rewrite H.
  assert (Hfail : forall r' (w1 : world),
            localStorage (snd (failure_of r' w1)) = localStorage w1 /\
            location_href (snd (failure_of r' w1)) = location_href w1 /\
            fetched (snd (failure_of r' w1)) = fetched w1).
  { intros r' w1. unfold failure_of, bind, lift.
    destruct (handleApiError r'); repeat split. }
  destruct (status r =? 400).
  - destruct (json r) as [error |]; simpl;
      [| repeat split; discriminate].
    destruct (get error "requires_2fa") as [flag |]; simpl;
      [| repeat split; discriminate].
    destruct (truthy flag); [repeat split; discriminate |].
    destruct (Hfail (consumed r)
                {| localStorage := localStorage w; location_href := location_href w;
                   toasts := toasts w; console := console w;
                   fetched := fetched w ++ [login_request c] |}) as (H1 & H2 & H3).
    repeat split; try assumption. discriminate.
  - destruct (Hfail r
                {| localStorage := localStorage w; location_href := location_href w;
                   toasts := toasts w; console := console w;
                   fetched := fetched w ++ [login_request c] |}) as (H1 & H2 & H3).
    repeat split; try assumption. discriminate.
Qed.

(** With no refresh token in the store, [logout] is local: it sends no
    request, removes the access token and navigates to ["/"]. *)
Theorem logout_without_refresh_token (w : world) :
  localStorage w !! "refresh_token" = None ->
  fst (logout net w) = Ok tt /\
  fetched (snd (logout net w)) = fetched w /\
  localStorage (snd (logout net w)) =
    delete "refresh_token" (delete "access_token" (localStorage w)) /\
  location_href (snd (logout net w)) = (location_href w ++ ["/"])%list.
Proof.
  intros Hrt. unfold logout, bind, getItem, item. simpl. rewrite Hrt. simpl.
  repeat split.
Qed.

Lemma refreshToken_other_keys (w : world) (k : string) :
  k <> "access_token" -> k <> "refresh_token" ->
  localStorage (snd (refreshToken net w)) !! k = localStorage w !! k.
Proof.
  intros Ha Hr.
  pose proof (refreshToken_spec net w) as H. cbv zeta in H.
  unfold refresh_failed in H.
  destruct (localStorage w !! "refresh_token") as [rt |];
    [| break_and; congruence].
  destruct (String.eqb rt ""); [break_and; congruence |].
  destruct H as [_ H].
  destruct (net _ _) as [r |]; [| break_and; congruence].
  destruct (ok r); [| break_and; congruence].
  destruct (json r) as [data |]; [| break_and; congruence].
  destruct (nullish data); [break_and; congruence |].
  destruct H as (_ & _ & ->).
  rewrite !lookup_insert_ne by congruence. reflexivity.
Qed.

Lemma apiRequest_other_keys (u : string) (opts : options) (w : world) (k : string) :
  k <> "access_token" -> k <> "refresh_token" ->
  localStorage (snd (apiRequest net u opts w)) !! k = localStorage w !! k.
Proof.
  intros Ha Hr. rewrite (apiRequest_spec net u opts w). cbv zeta.
  set (w1 := snd (fetch net (original_request u opts w) w)).
  pose proof (refreshToken_other_keys w1 k Ha Hr) as Hk.
  destruct (net (fetched w) _) as [r0 |]; [| reflexivity].
  destruct (status r0 =? 401); [| reflexivity].
  destruct (fst (refreshToken net w1)) as [tok | e]; [| exact Hk].
  destruct (truthy tok); exact Hk.
Qed.

End SessionMore.

(** ** The operations built on the gateway *)

Section OperationsMore.

Variable net : network.

Lemma failure_of_world (r : response) (w : world) :
  snd (failure_of r w) = w.
Proof. unfold failure_of, bind, lift. destruct (handleApiError r); reflexivity. Qed.

Lemma login_other_keys (c : credentials) (w : world) (k : string) :
  k <> "access_token" -> k <> "refresh_token" ->
  localStorage (snd (login net c w)) !! k = localStorage w !! k.
Proof.
  intros Ha Hr. unfold login, bind, fetch, answer, lift. simpl.
  destruct (net (fetched w) (login_request c)) as [r |]; simpl; [| reflexivity].
  destruct (ok r).
  - destruct (json r) as [data |]; simpl; [| reflexivity].
    destruct (get data "access_token") as [a |] eqn:Hget; simpl; [| reflexivity].
    assert (Hdata : nullish data = false) by (destruct data; simpl in *; congruence).
    rewrite (get_not_nullish _ _ Hdata). simpl.
    rewrite !lookup_insert_ne by congruence. reflexivity.
  - destruct (status r =? 400).
    + destruct (json r) as [error |]; simpl; [| reflexivity].
      destruct (get error "requires_2fa") as [flag |]; simpl; [| reflexivity].
      destruct (truthy flag); [reflexivity |]. rewrite failure_of_world. reflexivity.
    + rewrite failure_of_world. reflexivity.
Qed.

(** [logoutAll] always ends signed out: whatever the store held and
    whatever the network did, it returns, neither token is in the store,
    and the last navigation is to the login page.  Unlike [logout] it
    calls the server even when the store is empty: its request is always
    the first one sent. *)
Theorem logoutAll_clears_tokens (w : world) :
  fst (logoutAll net w) = Ok tt /\
  credentials_cleared (snd (logoutAll net w)) /\
  last (location_href (snd (logoutAll net w))) = Some "/login" /\
  exists later,
    fetched (snd (logoutAll net w)) =
      (fetched w ++
       original_request "http://127.0.0.1:8000/api/auth/logout-all/"
         (method_options "POST" None) w :: later)%list.
Proof.
  destruct (apiRequest_fetched net "http://127.0.0.1:8000/api/auth/logout-all/"
              (method_options "POST" None) w) as (later & Hlog & _).
  unfold logoutAll, try_finally, try_catch, bind, credentials_cleared.
  destruct (apiRequest net _ _ w) as [[r | e] w2]; simpl in *.
  - repeat split.
    + rewrite lookup_delete_ne by discriminate. apply lookup_delete_eq.
    + apply lookup_delete_eq.
    + apply last_snoc.
    + exists later. exact Hlog.
  - repeat split.
    + rewrite lookup_delete_ne by discriminate. apply lookup_delete_eq.
    + apply lookup_delete_eq.
    + apply last_snoc.
    + exists later. exact Hlog.
Qed.

(** The client writes two keys only: whatever happens, [refreshToken],
    [apiRequest], [login], [logout] and [logoutAll] leave every other
    entry of [localStorage] as it was. *)
Theorem client_writes_only_token_keys (w : world) (k : string) (u : string)
    (opts : options) (c : credentials) :
  k <> "access_token" ->
  k <> "refresh_token" ->
  localStorage (snd (refreshToken net w)) !! k = localStorage w !! k /\
  localStorage (snd (apiRequest net u opts w)) !! k = localStorage w !! k /\
  localStorage (snd (login net c w)) !! k = localStorage w !! k /\
  localStorage (snd (logout net w)) !! k = localStorage w !! k /\
  localStorage (snd (logoutAll net w)) !! k = localStorage w !! k.
Proof.
  intros Ha Hr.
  split; [apply refreshToken_other_keys; assumption |].
  split; [apply apiRequest_other_keys; assumption |].
  split; [apply login_other_keys; assumption |].
  split.
  - unfold logout, bind, getItem. simpl.
    destruct (truthy (item (localStorage w) "refresh_token")).
    + unfold try_catch, bind.
      pose proof (apiRequest_other_keys net "http://127.0.0.1:8000/api/auth/logout/"
                    (logout_options (item (localStorage w) "refresh_token")) w k Ha Hr)
        as Hk.
      destruct (apiRequest net _ _ w) as [[r | e] w2]; simpl in *;
        rewrite !lookup_delete_ne by congruence; exact Hk.
    + simpl. rewrite !lookup_delete_ne by congruence. reflexivity.
  - unfold logoutAll, try_finally, try_catch, bind.
    pose proof (apiRequest_other_keys net "http://127.0.0.1:8000/api/auth/logout-all/"
                  (method_options "POST" None) w k Ha Hr) as Hk.
    destruct (apiRequest net _ _ w) as [[r | e] w2]; simpl in *;
      rewrite !lookup_delete_ne by congruence; exact Hk.
Qed.

(** [deleteAccountImmediate] signs out only when the server agreed: if the
    gateway's response is 2xx, both tokens are removed and the last
    navigation is to ["/goodbye"]; if it is not, the operation itself
    removes nothing and navigates nowhere. *)
Theorem deleteAccountImmediate_signs_out_on_success (password : value)
    (w : world) (r : response) :
  let call :=
    apiRequest net "http://127.0.0.1:8000/api/auth/delete-account-immediate/"
      (method_options "POST"
         (Some (VObj [("password", password); ("confirm_deletion", VBool true)]))) w in
  fst call = Ok r ->
  (ok r = true ->
     fst (deleteAccountImmediate net password w) = Ok (VObj [("success", VBool true)]) /\
     credentials_cleared (snd (deleteAccountImmediate net password w)) /\
     last (location_href (snd (deleteAccountImmediate net password w))) = Some "/goodbye") /\
  (ok r = false ->
     localStorage (snd (deleteAccountImmediate net password w)) = localStorage (snd call) /\
     location_href (snd (deleteAccountImmediate net password w)) = location_href (snd call)).
Proof.
  cbv zeta. unfold deleteAccountImmediate, bind, credentials_cleared.
  destruct (apiRequest net _ _ w) as [res w2]. simpl. intros ->.
  split; intros ->.
  - simpl. repeat split.
    + rewrite lookup_delete_ne by discriminate. apply lookup_delete_eq.
    + apply lookup_delete_eq.
    + apply last_snoc.
  - rewrite failure_of_world. split; reflexivity.
Qed.

Lemma apiRequest_session_expired (u : string) (opts : options) (w : world) :
  session_expired net ->
  fst (apiRequest net u opts w) = Ok authentication_failed /\
  location_href (snd (apiRequest net u opts w)) = (location_href w ++ ["/login"])%list /\
  localStorage (snd (apiRequest net u opts w)) = localStorage w.
Proof.
  intros Hexp. rewrite (apiRequest_spec net u opts w). cbv zeta.
  set (w1 := snd (fetch net (original_request u opts w) w)).
  destruct (Hexp (fetched w) (original_request u opts w)) as (r0 & -> & ->).
  simpl Z.eqb. cbv iota.
  assert (Hfail : refresh_failed w1 (snd (refreshToken net w1)) (fst (refreshToken net w1))).
  { pose proof (refreshToken_spec net w1) as H. cbv zeta in H.
    destruct (localStorage w1 !! "refresh_token") as [rt |]; [| apply H].
    destruct (String.eqb rt ""); [apply H |].
    destruct H as [_ H].
    destruct (Hexp (fetched w1) (refresh_request (VStr rt))) as (r1 & Hr1 & Hst).
    rewrite Hr1 in H. unfold ok in H. rewrite Hst in H. exact H. }
  destruct Hfail as (-> & Hhref & Hstore). simpl.
  rewrite Hhref, Hstore. repeat split.
Qed.

(** Once the session has expired for good (the backend answers every
    request, the refresh included, with 401), every operation built on the
    gateway reports the same failure, [{ success: false, error }] with the
    message ["Authentication failed, please log in."], after exactly one
    redirect to the login page, and the store is left as it was. *)
Theorem operations_report_expired_session (w : world)
    (token password profileData passwordData : value) :
  session_expired net ->
  nullish passwordData = false ->
  Forall (fun operation : M value =>
            fst (operation w) = Ok authentication_failure /\
            location_href (snd (operation w)) = (location_href w ++ ["/login"])%list /\
            localStorage (snd (operation w)) = localStorage w)
    [changePassword net passwordData; enable2FA net; confirm2FA net token;
     disable2FA net password token; generateBackupCodes net; get2FAStatus net;
     getUserProfile net; updateProfile net profileData; getAccountStatus net;
     deleteAccount net password; cancelDeletion net password;
     deleteAccountImmediate net password].
Proof.
  intros Hexp Hpd.
  assert (Hgate : forall u opts (k : response -> M value),
            k authentication_failed = failure_of authentication_failed ->
            fst (bind (apiRequest net u opts) k w) = Ok authentication_failure /\
            location_href (snd (bind (apiRequest net u opts) k w)) =
              (location_href w ++ ["/login"])%list /\
            localStorage (snd (bind (apiRequest net u opts) k w)) = localStorage w).
  { intros u opts k Hk.
    destruct (apiRequest_session_expired u opts w Hexp) as (Hres & Hhref & Hstore).
    unfold bind. destruct (apiRequest net u opts w) as [res w2]. simpl in *.
    subst res. rewrite Hk. unfold failure_of, bind, lift. simpl.
    repeat split; assumption. }
  repeat apply Forall_cons_2; try apply Forall_nil_2;
    try (apply Hgate; reflexivity).
  unfold changePassword. unfold bind at 1 2 3. unfold lift.
  rewrite !(get_not_nullish _ _ Hpd). apply Hgate. reflexivity.
Qed.

End OperationsMore.



Lemma login_unsuccessful_keeps_store_witness :
  localStorage (snd (login offline nurse signed_in)) = localStorage signed_in /\
  fst (login offline nurse signed_in) = Throw NetworkFailure.
Proof.
  destruct (login_unsuccessful_keeps_store offline nurse signed_in I)
    as (H1 & _ & _ & H4).
  split; [exact H1 | exact (H4 eq_refl)].
Defined.

Lemma login_400_reads_body_twice_witness :
  fst (login bad_credentials_backend nurse signed_out) = Throw TypeError_bodyUsed.
Proof.
  exact (login_400_reads_body_twice bad_credentials_backend nurse signed_out _
           bad_credentials_body eq_refl eq_refl eq_refl eq_refl eq_refl).
Defined.

Lemma logout_without_refresh_token_witness :
  fetched (snd (logout always_401 signed_out)) = [] /\
  location_href (snd (logout always_401 signed_out)) = ["/"].
Proof.
  destruct (logout_without_refresh_token always_401 signed_out eq_refl)
    as (_ & H2 & _ & H4).
  split; [exact H2 | exact H4].
Defined.

Lemma client_writes_only_token_keys_witness :
  localStorage (snd (logout refreshing_backend with_preferences)) !! "theme" = Some "dark" /\
  localStorage (snd (logoutAll always_401 with_preferences)) !! "theme" = Some "dark".
Proof.
  destruct (client_writes_only_token_keys refreshing_backend with_preferences "theme"
              profile_url no_options nurse ltac:(discriminate) ltac:(discriminate))
    as (_ & _ & _ & H4 & _).
  destruct (client_writes_only_token_keys always_401 with_preferences "theme"
              profile_url no_options nurse ltac:(discriminate) ltac:(discriminate))
    as (_ & _ & _ & _ & H5).
  split; [exact H4 | exact H5].
Defined.

Lemma deleteAccountImmediate_signs_out_on_success_witness :
  fst (deleteAccountImmediate granting_backend (VStr "correct horse") signed_in) =
    Ok (VObj [("success", VBool true)]) /\
  credentials_cleared
    (snd (deleteAccountImmediate granting_backend (VStr "correct horse") signed_in)).
Proof.
  destruct (proj1 (deleteAccountImmediate_signs_out_on_success granting_backend
                     (VStr "correct horse") signed_in _ eq_refl) eq_refl)
    as (H1 & H2 & _).
  split; [exact H1 | exact H2].
Defined.

Lemma operations_report_expired_session_witness :
  session_expired always_401 /\
  fst (getUserProfile always_401 signed_in) = Ok authentication_failure.
Proof.
  assert (Hexp : session_expired always_401)
    by (intros history req; eexists; split; reflexivity).
  split; [exact Hexp |].
  pose proof (operations_report_expired_session always_401 signed_in
                VNull VNull VNull (VObj []) Hexp eq_refl) as H.
  apply Forall_lookup_1 with (i := 6%nat) (x := getUserProfile always_401) in H;
    [exact (proj1 H) | reflexivity].
Defined.

(** ** Operations end to end *)

Section EndToEnd.

Variable net : network.


(** The operations that call [fetch] themselves never touch the browser:
    [verifyEmail], [forgotPassword], [resetPassword],
    [emergencyDisable2FA] and [register] leave the store, the location
    and the toasts as they were, whatever the network answers, and send
    exactly one request; [register] on [null] or [undefined] user data
    throws before anything is sent. *)
Theorem public_operations_leave_browser_alone (w : world)
    (token email password newPassword userData : value) :
  Forall (fun operation : M value =>
            localStorage (snd (operation w)) = localStorage w /\
            location_href (snd (operation w)) = location_href w /\
            toasts (snd (operation w)) = toasts w /\
            length (fetched (snd (operation w))) = S (length (fetched w)))
    [verifyEmail net token; forgotPassword net email;
     resetPassword net token newPassword;
     emergencyDisable2FA net email password] /\
  localStorage (snd (register net userData w)) = localStorage w /\
  location_href (snd (register net userData w)) = location_href w /\
  toasts (snd (register net userData w)) = toasts w /\
  (nullish userData = false ->
     length (fetched (snd (register net userData w))) = S (length (fetched w))) /\
  (nullish userData = true ->
     fst (register net userData w) = Throw TypeError_nullish /\
     fetched (snd (register net userData w)) = fetched w).
Proof.
  assert (Hshape : forall req (k : response -> M value),
            (forall r w', snd (k r w') = w') ->
            localStorage (snd (bind (fetch net req) k w)) = localStorage w /\
            location_href (snd (bind (fetch net req) k w)) = location_href w /\
            toasts (snd (bind (fetch net req) k w)) = toasts w /\
            length (fetched (snd (bind (fetch net req) k w))) = S (length (fetched w))).
  { intros req k Hk. unfold bind, fetch, answer.
    destruct (net (fetched w) req) as [r |]; [rewrite Hk |]; simpl;
      (repeat split; rewrite length_app; simpl; lia). }
  assert (Hk1 : forall r w',
            snd ((if ok r then ret (VObj [("success", VBool true)])
                  else failure_of r) w') = w').
  { intros r w'. destruct (ok r); [reflexivity | apply failure_of_world]. }
  assert (Hk2 : forall r w',
            snd ((if ok r
                  then let! data := lift (json r) in
                       ret (VObj [("success", VBool true); ("data", data)])
                  else failure_of r) w') = w').
  { intros r w'. destruct (ok r); [| apply failure_of_world].
    unfold bind, lift. destruct (json r); reflexivity. }
  split.
  { repeat apply Forall_cons_2; try apply Forall_nil_2;
      apply Hshape; first [exact Hk1 | exact Hk2]. }
  unfold register.
  destruct (nullish userData) eqn:Hud.
  - destruct userData; try discriminate;
      (do 3 (split; [reflexivity |]);
       split; [discriminate | intros _; split; reflexivity]).
  - unfold bind at 1 2 3 4. unfold lift.
    rewrite !(get_not_nullish _ _ Hud).
    destruct (Hshape
                (json_post "http://127.0.0.1:8000/api/auth/register/"
                   (VObj [("email", prop userData "email");
                          ("full_name", prop userData "fullName");
                          ("password", prop userData "password");
                          ("confirm_password", prop userData "confirmPassword")]))
                _ Hk2) as (H1 & H2 & H3 & H4).
    split; [exact H1 |]. split; [exact H2 |]. split; [exact H3 |].
    split; [intros _; exact H4 | discriminate].
Qed.

(** An empty 2xx answer (a 204, say) separates the operations: those that
    only test [response.ok] report success, those that read the body
    throw the parse failure at their caller. *)
Theorem empty_success_body (w : world) (token email password newPassword userData : value) :
  answers_without_content net ->
  nullish userData = false ->
  Forall (fun operation : M value =>
            fst (operation w) = Ok (VObj [("success", VBool true)]))
    [verifyEmail net token; forgotPassword net email;
     resetPassword net token newPassword; confirm2FA net token;
     cancelDeletion net password] /\
  Forall (fun operation : M value => fst (operation w) = Throw SyntaxError)
    [register net userData; emergencyDisable2FA net email password;
     getUserProfile net; get2FAStatus net; enable2FA net].
Proof.
  intros Hnet Hud.
  assert (Hfetch : forall req (k : response -> M value) (res : result value),
            (forall r w', ok r = true -> body r = None -> bodyUsed r = false ->
                          fst (k r w') = res) ->
            fst (bind (fetch net req) k w) = res).
  { intros req k res Hk. unfold bind, fetch, answer.
    destruct (Hnet (fetched w) req) as (r & -> & Hok & Hbody & Hused).
    apply Hk; assumption. }
  assert (Hgate : forall u opts (k : response -> M value) (res : result value),
            (forall r w', ok r = true -> body r = None -> bodyUsed r = false ->
                          fst (k r w') = res) ->
            fst (bind (apiRequest net u opts) k w) = res).
  { intros u opts k res Hk. unfold bind.
    rewrite (apiRequest_spec net u opts w). cbv zeta.
    destruct (Hnet (fetched w) (original_request u opts w))
      as (r & -> & Hok & Hbody & Hused).
    assert (Hst : (status r =? 401) = false).
    { unfold ok in Hok. apply andb_true_iff in Hok. destruct Hok as [_ Hle].
      apply Z.leb_le in Hle. apply Z.eqb_neq. lia. }
    rewrite Hst. apply Hk; assumption. }
  assert (Hread : forall r, body r = None -> bodyUsed r = false ->
                            json r = Throw SyntaxError).
  { intros r Hbody Hused. unfold json. rewrite Hused, Hbody. reflexivity. }
  split.
  - repeat apply Forall_cons_2; try apply Forall_nil_2;
      first [apply Hfetch | apply Hgate];
      intros r w' Hok _ _; rewrite Hok; reflexivity.
  - repeat apply Forall_cons_2; try apply Forall_nil_2.
    + unfold register. unfold bind at 1 2 3 4. unfold lift.
      rewrite !(get_not_nullish _ _ Hud). apply Hfetch.
      intros r w' Hok Hbody Hused. rewrite Hok. unfold bind, lift.
      rewrite (Hread r Hbody Hused). reflexivity.
    + apply Hfetch. intros r w' Hok Hbody Hused. rewrite Hok. unfold bind, lift.
      rewrite (Hread r Hbody Hused). reflexivity.
    + apply Hgate. intros r w' Hok Hbody Hused. rewrite Hok. unfold bind, lift.
      rewrite (Hread r Hbody Hused). reflexivity.
    + apply Hgate. intros r w' Hok Hbody Hused. rewrite Hok. unfold bind, lift.
      rewrite (Hread r Hbody Hused). reflexivity.
    + apply Hgate. intros r w' Hok Hbody Hused. rewrite Hok. unfold bind, lift.
      rewrite (Hread r Hbody Hused). reflexivity.
Qed.

End EndToEnd.


Lemma empty_success_body_witness :
  answers_without_content no_content_backend /\
  fst (verifyEmail no_content_backend (VStr "token") signed_out) =
    Ok (VObj [("success", VBool true)]) /\
  fst (register no_content_backend new_user signed_out) = Throw SyntaxError.
Proof.
  assert (Hnet : answers_without_content no_content_backend)
    by (intros history req; eexists; repeat split).
  split; [exact Hnet |].
  destruct (empty_success_body no_content_backend signed_out (VStr "token")
              VNull VNull VNull new_user Hnet eq_refl) as [Hok Hthrow].
  split.
  - apply Forall_lookup_1 with (i := 0%nat) (x := verifyEmail no_content_backend (VStr "token"))
      in Hok; [exact Hok | reflexivity].
  - apply Forall_lookup_1 with (i := 0%nat) (x := register no_content_backend new_user)
      in Hthrow; [exact Hthrow | reflexivity].
Defined.

(** ** The session context *)

Section Provider.

Variable net : network.

(** Without an access token the provider asks nothing: no request is
    sent, the browser is untouched, the user is the one it started with
    and the loading flag is cleared. *)
Theorem loadUser_without_token (s : auth_state) (w : world) :
  localStorage w !! "access_token" = None ->
  loadUser net s w = (Ok {| user := user s; loading := false |}, w).
Proof.
  intros Htok. unfold loadUser, bind, getItem, item. simpl. rewrite Htok.
  reflexivity.
Qed.

(** With a token and a profile answered 2xx, the provider holds the
    profile and is no longer loading; the store is what it was. *)
Theorem loadUser_profile_loaded (s : auth_state) (w : world) (r : response)
    (profile : value) :
  truthy (item (localStorage w) "access_token") = true ->
  net (fetched w)
    (original_request "http://127.0.0.1:8000/api/users/me/" no_options w) = Some r ->
  ok r = true ->
  json r = Ok profile ->
  fst (loadUser net s w) = Ok {| user := profile; loading := false |} /\
  localStorage (snd (loadUser net s w)) = localStorage w /\
  location_href (snd (loadUser net s w)) = location_href w.
Proof.
  intros Htok Hnet Hok Hjson.
  assert (Hst : status r <> 401).
  { unfold ok in Hok. apply andb_true_iff in Hok. destruct Hok as [_ Hle].
    apply Z.leb_le in Hle. lia. }
  destruct (apiRequest_first_answer_final net "http://127.0.0.1:8000/api/users/me/"
              no_options w) as (Hres & Hstore & Hhref & _).
  { rewrite Hnet. exact Hst. }
  unfold answer in Hres. rewrite Hnet in Hres.
  unfold loadUser, bind, getItem. simpl. rewrite Htok.
  unfold getUserProfile, bind.
  destruct (apiRequest net _ no_options w) as [res w2]. simpl in *.
  subst res. rewrite Hok. unfold lift. rewrite Hjson. simpl.
  repeat split; assumption.
Qed.

(** With a token the backend no longer accepts, refresh included, the
    provider ends signed out: the user is [null], loading is cleared, both
    tokens are removed and the refresher has redirected to the login page
    once. *)
Theorem loadUser_expired_session (s : auth_state) (w : world) :
  truthy (item (localStorage w) "access_token") = true ->
  session_expired net ->
  fst (loadUser net s w) = Ok {| user := VNull; loading := false |} /\
  credentials_cleared (snd (loadUser net s w)) /\
  location_href (snd (loadUser net s w)) = (location_href w ++ ["/login"])%list.
Proof.
  intros Htok Hexp.
  destruct (apiRequest_session_expired net "http://127.0.0.1:8000/api/users/me/"
              no_options w Hexp) as (Hres & Hhref & _).
  unfold loadUser, bind, getItem, credentials_cleared. simpl. rewrite Htok.
  unfold getUserProfile, bind.
  destruct (apiRequest net _ no_options w) as [res w2]. simpl in *.
  subst res. simpl. repeat split.
  - rewrite lookup_delete_ne by discriminate. apply lookup_delete_eq.
  - apply lookup_delete_eq.
  - exact Hhref.
Qed.

(** With a token and the network down, [loadUser] throws: the rejected
    [fetch] is caught nowhere, so no state setter runs (the loading flag
    is never cleared) and the tokens stay in the store. *)
Theorem loadUser_network_down (s : auth_state) (w : world) :
  truthy (item (localStorage w) "access_token") = true ->
  net (fetched w)
    (original_request "http://127.0.0.1:8000/api/users/me/" no_options w) = None ->
  fst (loadUser net s w) = Throw NetworkFailure /\
  localStorage (snd (loadUser net s w)) = localStorage w /\
  location_href (snd (loadUser net s w)) = location_href w.
Proof.
  intros Htok Hnet.
  destruct (apiRequest_first_answer_final net "http://127.0.0.1:8000/api/users/me/"
              no_options w) as (Hres & Hstore & Hhref & _).
  { rewrite Hnet. exact I. }
  unfold answer in Hres. rewrite Hnet in Hres.
  unfold loadUser, bind, getItem. simpl. rewrite Htok.
  unfold getUserProfile, bind.
  destruct (apiRequest net _ no_options w) as [res w2]. simpl in *.
  subst res. repeat split; assumption.
Qed.

End Provider.

Lemma loadUser_without_token_witness :
  loadUser always_401 mounting signed_out =
    (Ok {| user := VNull; loading := false |}, signed_out).
Proof. exact (loadUser_without_token always_401 mounting signed_out eq_refl). Defined.

Lemma loadUser_profile_loaded_witness :
  fst (loadUser profile_backend mounting signed_in) =
    Ok {| user := profile_body; loading := false |}.
Proof.
  exact (proj1 (loadUser_profile_loaded profile_backend mounting signed_in _
                  profile_body eq_refl eq_refl eq_refl eq_refl)).
Defined.

Lemma loadUser_expired_session_witness :
  fst (loadUser always_401 mounting signed_in) = Ok {| user := VNull; loading := false |} /\
  credentials_cleared (snd (loadUser always_401 mounting signed_in)).
Proof.
  destruct (loadUser_expired_session always_401 mounting signed_in eq_refl)
    as (H1 & H2 & _).
  - intros history req. eexists. split; reflexivity.
  - split; [exact H1 | exact H2].
Defined.

Lemma loadUser_network_down_witness :
  fst (loadUser offline mounting signed_in) = Throw NetworkFailure /\
  localStorage (snd (loadUser offline mounting signed_in)) = localStorage signed_in.
Proof.
  destruct (loadUser_network_down offline mounting signed_in eq_refl eq_refl)
    as (H1 & H2 & _).
  split; [exact H1 | exact H2].
Defined.

(** ** The rate-limit countdown *)






(** ** The progress page *)

Lemma lookup_set_prop_eq (k : string) (v : value) (props : list (string * value)) :
  lookup_prop k (set_prop k v props) = Some v.
Proof.
  induction props as [| [k' v'] rest IH]; simpl.
  - rewrite String.eqb_refl. reflexivity.
  - destruct (String.eqb k k') eqn:Hk; simpl; rewrite Hk; [reflexivity | exact IH].
Qed.

Lemma lookup_set_prop_ne (k k' : string) (v : value) (props : list (string * value)) :
  k <> k' -> lookup_prop k' (set_prop k v props) = lookup_prop k' props.
Proof.
  intros Hne. induction props as [| [k0 v0] rest IH]; simpl.
  - rewrite (proj2 (String.eqb_neq k' k)) by congruence. reflexivity.
  - destruct (String.eqb k k0) eqn:Hk; simpl.
    + apply String.eqb_eq in Hk. subst k0.
      rewrite (proj2 (String.eqb_neq k' k)) by congruence. reflexivity.
    + destruct (String.eqb k' k0); [reflexivity | exact IH].
Qed.

Section FirstMatch.

Variable callback : value -> result bool.

Lemma findIndex_from_none (i : Z) (l : list value) :
  Forall (fun p => callback p = Ok false) l -> findIndex_from i callback l = Ok (-1).
Proof.
  intros H. revert i. induction H as [| p rest Hp _ IH]; intros i; simpl.
  - reflexivity.
  - rewrite Hp. simpl. apply IH.
Qed.

Lemma find_value_none (l : list value) :
  Forall (fun p => callback p = Ok false) l -> find_value callback l = Ok VUndefined.
Proof.
  induction 1 as [| p rest Hp _ IH]; simpl; [reflexivity |].
  rewrite Hp. simpl. exact IH.
Qed.

Lemma findIndex_from_first (i : Z) (l : list value) (n : nat) (entry : value) :
  first_match callback l n entry -> findIndex_from i callback l = Ok (i + Z.of_nat n).
Proof.
  revert i n. induction l as [| p rest IH]; intros i n (Hn & Hacc & Hbefore).
  - discriminate.
  - destruct n as [| n]; simpl in *.
    + injection Hn as ->. rewrite Hacc. simpl. f_equal. lia.
    + rewrite (Hbefore 0%nat p ltac:(lia) eq_refl). simpl.
      rewrite (IH (i + 1) n).
      * f_equal. lia.
      * split; [exact Hn |]. split; [exact Hacc |].
        intros j q Hj Hq. apply (Hbefore (S j) q); [lia | exact Hq].
Qed.

Lemma find_value_first (l : list value) (n : nat) (entry : value) :
  first_match callback l n entry -> find_value callback l = Ok entry.
Proof.
  revert n. induction l as [| p rest IH]; intros n (Hn & Hacc & Hbefore).
  - discriminate.
  - destruct n as [| n]; simpl in *.
    + injection Hn as ->. rewrite Hacc. reflexivity.
    + rewrite (Hbefore 0%nat p ltac:(lia) eq_refl). simpl.
      apply (IH n). split; [exact Hn |]. split; [exact Hacc |].
      intros j q Hj Hq. apply (Hbefore (S j) q); [lia | exact Hq].
Qed.

Lemma first_match_app (l l' : list value) (n : nat) (entry : value) :
  first_match callback l n entry -> first_match callback (l ++ l') n entry.
Proof.
  intros (Hn & Hacc & Hbefore).
  pose proof (lookup_lt_Some _ _ _ Hn) as Hlt.
  split; [rewrite lookup_app_l by exact Hlt; exact Hn |].
  split; [exact Hacc |].
  intros j q Hj Hq. rewrite lookup_app_l in Hq by lia. eauto.
Qed.

End FirstMatch.

Lemma same_course_refines (courseId user p : value) :
  same_course courseId p = Ok false -> same_course_and_user courseId user p = Ok false.
Proof.
  unfold same_course, same_course_and_user.
  destruct (get p "course_id") as [cid |]; simpl; [| discriminate].
  intros [= ->]. reflexivity.
Qed.

Lemma pretty_N_go_digits (x : N) (s : string) :
  all_digits s = true -> all_digits (pretty_N_go x s) = true.
Proof.
  revert s. induction (N.lt_wf_0 x) as [x _ IH]; intros s Hs.
  destruct (N.eq_dec x 0%N) as [-> | Hx].
  - rewrite pretty_N_go_0. exact Hs.
  - rewrite pretty_N_go_step by lia. apply IH.
    + apply N.div_lt; lia.
    + simpl. rewrite Hs. rewrite andb_true_r.
      unfold pretty_N_char. repeat case_match; reflexivity.
Qed.

Lemma pretty_nat_digits (i : nat) : all_digits (pretty i) = true.
Proof.
  unfold pretty, pretty_nat, pretty, pretty_N.
  destruct (decide (N.of_nat i = 0%N)); [reflexivity |].
  apply pretty_N_go_digits. reflexivity.
Qed.

Lemma lookup_prop_imap_none (k : string) (f : nat -> value -> string * value)
    (l : list value) :
  (forall i x, fst (f i x) <> k) -> lookup_prop k (imap f l) = None.
Proof.
  revert f. induction l as [| a rest IH]; intros f Hf; simpl; [reflexivity |].
  destruct (f 0%nat a) as [k' v] eqn:Hfa.
  rewrite (proj2 (String.eqb_neq k k')).
  - apply IH. intros i x. apply Hf.
  - intros ->. apply (Hf 0%nat a). rewrite Hfa. reflexivity.
Qed.

(** A member whose name is not an index is copied by the spread exactly
    when the value spread is an object. *)
Lemma spread_named_member (entry : value) (k : string) :
  all_digits k = false ->
  default VUndefined (lookup_prop k (spread entry)) = prop entry k.
Proof.
  intros Hk.
  assert (Hidx : forall l : list value,
            lookup_prop k (imap (fun (i : nat) x => (pretty i, x)) l) = None).
  { intros l. apply lookup_prop_imap_none. intros i x Heq. simpl in Heq.
    rewrite <- Heq, pretty_nat_digits in Hk. discriminate. }
  destruct entry; simpl; try reflexivity; rewrite Hidx; reflexivity.
Qed.

(** An update in place: when the first entry for this course and this
    user stands at index [n], the updater writes the answer's
    [progress_percentage] and [completed_at] into that entry, keeps its
    other members, and leaves the list's length and every other entry as
    they were; if no earlier entry is for the course, the page then shows
    the answer's percentage. *)
Theorem updateUserProgress_in_place (courseId user data : value)
    (prevProgress : list value) (n : nat) (entry : value) :
  first_match (same_course_and_user courseId user) prevProgress n entry ->
  nullish data = false ->
  exists updated,
    updateUserProgress courseId user data prevProgress =
      Ok (<[n := updated]> prevProgress) /\
    length (<[n := updated]> prevProgress) = length prevProgress /\
    (<[n := updated]> prevProgress) !! n = Some updated /\
    (forall j : nat, j <> n -> (<[n := updated]> prevProgress) !! j = prevProgress !! j) /\
    prop updated "progress_percentage" = prop data "progress_percentage" /\
    prop updated "completed_at" = prop data "completed_at" /\
    (forall k, all_digits k = false ->
       k <> "progress_percentage" -> k <> "completed_at" ->
       prop updated k = prop entry k) /\
    ((forall (j : nat) q, (j < n)%nat -> prevProgress !! j = Some q ->
        same_course courseId q = Ok false) ->
     getCourseProgress (<[n := updated]> prevProgress) courseId =
       Ok (prop data "progress_percentage")).
Proof.
  intros Hfirst Hdata. pose proof Hfirst as (Hn & Hacc & Hbefore).
  pose proof (lookup_lt_Some _ _ _ Hn) as Hlt.
  set (updated := VObj (set_prop "completed_at" (prop data "completed_at")
                          (set_prop "progress_percentage"
                             (prop data "progress_percentage") (spread entry)))).
  assert (Hkeep : forall k, all_digits k = false ->
            k <> "progress_percentage" -> k <> "completed_at" ->
            prop updated k = prop entry k).
  { intros k Hk Hk1 Hk2. unfold prop at 1. simpl.
    rewrite !lookup_set_prop_ne by congruence. apply spread_named_member. exact Hk. }
  exists updated. split.
  { unfold updateUserProgress.
    rewrite (findIndex_from_first _ 0 _ n entry Hfirst). simpl.
    replace (-1 <? 0 + Z.of_nat n) with true by (symmetry; apply Z.ltb_lt; lia).
    replace (Z.to_nat (0 + Z.of_nat n)) with n by lia.
    rewrite Hn. unfold merged_entry. rewrite !(get_not_nullish _ _ Hdata). simpl.
    reflexivity. }
  split; [apply length_insert |].
  split; [apply list_lookup_insert_eq; exact Hlt |].
  split; [intros j Hj; apply list_lookup_insert_ne; congruence |].
  assert (Hpct : prop updated "progress_percentage" = prop data "progress_percentage").
  { unfold prop at 1. simpl. rewrite lookup_set_prop_ne by discriminate.
    rewrite lookup_set_prop_eq. reflexivity. }
  split; [exact Hpct |].
  split; [unfold prop at 1; simpl; rewrite lookup_set_prop_eq; reflexivity |].
  split; [exact Hkeep |].
  intros Hcourse. unfold getCourseProgress.
  rewrite (find_value_first (same_course courseId) _ n updated).
  - unfold result_bind. change (truthy updated) with true. cbv iota.
    rewrite (get_not_nullish updated "progress_percentage" eq_refl), Hpct.
    reflexivity.
  - split; [apply list_lookup_insert_eq; exact Hlt |]. split.
    + assert (Hcid : get updated "course_id" = Ok (prop entry "course_id")).
      { rewrite <- (Hkeep "course_id") by (reflexivity || discriminate).
        reflexivity. }
      unfold same_course. rewrite Hcid. simpl.
      unfold same_course_and_user in Hacc.
      destruct (get entry "course_id") as [cid |] eqn:Hget; simpl in Hacc;
        [| discriminate].
      unfold prop. rewrite Hget.
      destruct (strict_equals cid courseId); [reflexivity | discriminate].
    + intros j q Hj Hq. rewrite list_lookup_insert_ne in Hq by lia. eauto.
Qed.

(** A first interaction: when the list holds no entry for the course, the
    page shows 0 for it, the updater appends the answer, and the page
    then shows the answer's percentage, provided the answer names the
    course. *)
Theorem updateUserProgress_first_entry (courseId user data : value)
    (prevProgress : list value) :
  Forall (fun p => same_course courseId p = Ok false) prevProgress ->
  same_course courseId data = Ok true ->
  truthy data = true ->
  getCourseProgress prevProgress courseId = Ok (VNum 0) /\
  updateUserProgress courseId user data prevProgress = Ok (prevProgress ++ [data])%list /\
  getCourseProgress (prevProgress ++ [data])%list courseId =
    Ok (prop data "progress_percentage").
Proof.
  intros Hnone Hdata Htruthy.
  assert (Hdata' : nullish data = false) by (destruct data; simpl in *; congruence).
  split; [unfold getCourseProgress; rewrite find_value_none by exact Hnone;
          reflexivity |].
  split.
  - unfold updateUserProgress. rewrite findIndex_from_none; [reflexivity |].
    eapply Forall_impl; [exact Hnone |]. intros p. apply same_course_refines.
  - unfold getCourseProgress.
    rewrite (find_value_first (same_course courseId) _ (length prevProgress) data).
    + unfold result_bind. rewrite Htruthy. apply get_not_nullish. exact Hdata'.
    + split; [apply list_lookup_middle; reflexivity |]. split; [exact Hdata |].
      intros j q Hj Hq. rewrite lookup_app_l in Hq by exact Hj.
      apply (proj1 (Forall_lookup _ _) Hnone j q Hq).
Qed.

(** A stale display: when an entry for the course exists but none matches
    both the course and the user (an entry without [user_id], say), the
    updater appends the answer instead of replacing the entry, and the
    page, which reads the first entry for the course, shows what it
    showed before. *)
Theorem updateUserProgress_stale_display (courseId user data : value)
    (prevProgress : list value) (n : nat) (entry : value) :
  Forall (fun p => same_course_and_user courseId user p = Ok false) prevProgress ->
  first_match (same_course courseId) prevProgress n entry ->
  updateUserProgress courseId user data prevProgress = Ok (prevProgress ++ [data])%list /\
  length (prevProgress ++ [data])%list = S (length prevProgress) /\
  getCourseProgress (prevProgress ++ [data])%list courseId =
    getCourseProgress prevProgress courseId.
Proof.
  intros Hnone Hfirst. split; [| split].
  - unfold updateUserProgress. rewrite findIndex_from_none by exact Hnone. reflexivity.
  - rewrite length_app. simpl. lia.
  - unfold getCourseProgress.
    rewrite (find_value_first _ _ n entry (first_match_app _ _ [data] _ _ Hfirst)).
    rewrite (find_value_first _ _ n entry Hfirst). reflexivity.
Qed.

Lemma updateUserProgress_in_place_witness :
  first_match (same_course_and_user (VNum 3) student)
    [course_5_mine; course_3_mine] 1 course_3_mine /\
  exists updated,
    updateUserProgress (VNum 3) student course_3_completed [course_5_mine; course_3_mine] =
      Ok [course_5_mine; updated] /\
    prop updated "progress_percentage" = VNum 100 /\
    prop updated "completed_at" = VStr "2024-06-01" /\
    prop updated "user_id" = VNum 7.
Proof.
  assert (Hfirst : first_match (same_course_and_user (VNum 3) student)
                     [course_5_mine; course_3_mine] 1 course_3_mine).
  { split; [reflexivity |]. split; [reflexivity |].
    intros [| j] q Hj Hq; [injection Hq as <-; reflexivity | lia]. }
  split; [exact Hfirst |].
  destruct (updateUserProgress_in_place (VNum 3) student course_3_completed
              [course_5_mine; course_3_mine] 1 course_3_mine Hfirst eq_refl)
    as (updated & Hupd & _ & _ & _ & Hpct & Hat & Hkeep & _).
  exists updated. split; [exact Hupd |]. split; [exact Hpct |]. split; [exact Hat |].
  apply (Hkeep "user_id"); [reflexivity | discriminate | discriminate].
Defined.

Lemma updateUserProgress_first_entry_witness :
  getCourseProgress [course_5_mine] (VNum 3) = Ok (VNum 0) /\
  updateUserProgress (VNum 3) student course_3_completed [course_5_mine] =
    Ok [course_5_mine; course_3_completed] /\
  getCourseProgress [course_5_mine; course_3_completed] (VNum 3) = Ok (VNum 100).
Proof.
  apply (updateUserProgress_first_entry (VNum 3) student course_3_completed
           [course_5_mine]); [| reflexivity | reflexivity].
  repeat constructor.
Defined.

Lemma updateUserProgress_stale_display_witness :
  updateUserProgress (VNum 3) student course_3_completed [course_3_unowned] =
    Ok [course_3_unowned; course_3_completed] /\
  getCourseProgress [course_3_unowned; course_3_completed] (VNum 3) = Ok (VNum 0).
Proof.
  destruct (updateUserProgress_stale_display (VNum 3) student course_3_completed
              [course_3_unowned] 0 course_3_unowned) as (Hupd & _ & Hshow).
  - repeat constructor.
  - split; [reflexivity |]. split; [reflexivity |]. intros j q Hj. lia.
  - split; [exact Hupd |]. exact (eq_trans Hshow eq_refl).
Defined.

Lemma public_operations_leave_browser_alone_witness :
  localStorage (snd (register always_401 new_user signed_in)) = localStorage signed_in /\
  length (fetched (snd (register always_401 new_user signed_in))) = 1%nat /\
  fst (register always_401 VUndefined signed_in) = Throw TypeError_nullish.
Proof.
  destruct (public_operations_leave_browser_alone always_401 signed_in
              VNull VNull VNull VNull new_user) as (_ & Hstore & _ & _ & Hlen & _).
  destruct (public_operations_leave_browser_alone always_401 signed_in
              VNull VNull VNull VNull VUndefined) as (_ & _ & _ & _ & _ & Hthrow).
  split; [exact Hstore |]. split; [exact (Hlen eq_refl) |].
  exact (proj1 (Hthrow eq_refl)).
Defined.
